(* Shallow embedding of the two HTTP layers of the front-end:
   - src/api/client.js  (module [Client]: apiRequest, shouldRetry, getRetryDelay,
     mapStatusToErrorType), and
   - src/utils/http.js  (module [Http]: interceptor registries, processResponse,
     the interceptor chains and the retry loop of [request]).
   JS numbers used as integers are [Z]; Math.random is an explicit argument in [Q].
   The network is an oracle [fetch : Z -> FetchResult] indexed by attempt number,
   and every model returns the list of attempt numbers at which fetch was called. *)

From Stdlib Require Import ZArith List String Ascii Bool Lia QArith Lqa.
Import ListNotations.
Open Scope string_scope.
Open Scope Z_scope.

(* ------------------------------------------------------------------------- *)
(* Values shared by both layers                                               *)

(* A thrown value that is not an Error: null, or another primitive such as the
   string given to controller.abort(reason), written by its string form.
   Reading a property of null throws a TypeError; of a primitive, it gives
   undefined. *)
Inductive NonError :=
| NNull
| NPrim (s : string).

(* The parsed body of a response, or other payloads stored in an error. *)
Inductive Data :=
| DNull                                   (* null / undefined *)
| DJson (message : option string)         (* a JSON object, with its [message] field *)
| DText (s : string)                      (* response.text() *)
| DBlob                                   (* response.blob() *)
| DResponse                               (* the fetch Response object itself *)
| DOriginal (name message : string)       (* { originalError: error } *)
| DOriginalValue (v : NonError).          (* { originalError: v }, v not an Error *)

(* A fetch Response: status, statusText, the Content-Type header (None when
   absent), what response.json() yields (None: it rejects with a SyntaxError)
   and what response.text() yields. *)
Record Response := mkResponse {
  r_status : Z;
  r_statusText : string;
  r_contentType : option string;
  r_json : option Data;
  r_text : string
}.

(* response.ok *)
Definition response_ok (r : Response) : bool :=
  (200 <=? r_status r) && (r_status r <=? 299).

(* What a call to fetch does: resolve with a response, reject with an Error
   of the given [name] and [message], or reject with a value that is not an
   Error (the reason of an aborted signal, as in controller.abort('timeout')). *)
Inductive FetchResult :=
| FResponse (r : Response)
| FReject (name message : string)
| FRejectValue (v : NonError).

(* String.prototype.includes *)
Fixpoint includes (s sub : string) : bool :=
  prefix sub s || match s with
                  | EmptyString => false
                  | String _ s' => includes s' sub
                  end.

(* Decimal rendering of an integer, as in a template literal. *)
Fixpoint digits_of (fuel : nat) (n : Z) (acc : string) : string :=
  match fuel with
  | O => acc
  | S f =>
      let acc' := String (ascii_of_nat (48 + Z.to_nat (Z.rem n 10))) acc in
      if n <? 10 then acc' else digits_of f (Z.quot n 10) acc'
  end.

Definition string_of_Z (n : Z) : string :=
  if n <? 0 then append "-" (digits_of 64 (- n) "") else digits_of 64 n "".

(* JS truthiness of a string *)
Definition truthy (s : string) : bool := negb (String.eqb s "").

(* [x?.message] of a parsed body. *)
Definition data_message (d : Data) : option string :=
  match d with
  | DJson (Some m) => if truthy m then Some m else None
  | _ => None
  end.

(* ========================================================================= *)
Module Client.

Inductive ErrorType :=
| NETWORK | TIMEOUT | SERVER | AUTH | VALIDATION | NOT_FOUND | CANCELED | UNKNOWN.

Definition ErrorType_eqb (a b : ErrorType) : bool :=
  match a, b with
  | NETWORK, NETWORK | TIMEOUT, TIMEOUT | SERVER, SERVER | AUTH, AUTH
  | VALIDATION, VALIDATION | NOT_FOUND, NOT_FOUND | CANCELED, CANCELED
  | UNKNOWN, UNKNOWN => true
  | _, _ => false
  end.

(* class ApiError *)
Record ApiError := mkApiError {
  message : string;
  type : ErrorType;
  statusCode : Z;
  data : Data
}.

(* What executeRequest can throw: its own ApiError, another Error (seen
   through its [name] and [message]), or a value that is not an Error. *)
Inductive Thrown :=
| ThApi (e : ApiError)
| ThOther (name message : string)
| ThValue (v : NonError).

Definition mapStatusToErrorType (statusCode : Z) : ErrorType :=
  if statusCode >=? 500 then SERVER
  else if (statusCode =? 401) || (statusCode =? 403) then AUTH
  else if statusCode =? 404 then NOT_FOUND
  else if statusCode =? 422 then VALIDATION
  else UNKNOWN.

Definition shouldRetry (error : ApiError) (retryCount maxRetries : Z) : bool :=
  if retryCount >=? maxRetries then false
  else if ErrorType_eqb (type error) AUTH
          || ErrorType_eqb (type error) VALIDATION
          || ErrorType_eqb (type error) CANCELED then false
  else ErrorType_eqb (type error) NETWORK
       || ErrorType_eqb (type error) TIMEOUT
       || (ErrorType_eqb (type error) SERVER && (statusCode error >=? 500)).

(* getRetryDelay, over exact rationals; [random] is the value of Math.random(). *)
Definition getRetryDelay (retryCount : Z) (random : Q) : Q :=
  let baseDelay := 300 in
  let maxDelay := 3000 in
  let exponentialDelay := inject_Z (Z.min maxDelay (baseDelay * 2 ^ retryCount)) in
  let jitter := (exponentialDelay * (2 # 10) * (random - (1 # 2)))%Q in
  (exponentialDelay + jitter)%Q.

(* The body parsing of executeRequest: JSON when the content-type header
   includes 'application/json', text otherwise.  [inl e] is a rejection of
   response.json(). *)
Definition parseBody (response : Response) : Data + Thrown :=
  match r_contentType response with
  | Some contentType =>
      if includes contentType "application/json" then
        match r_json response with
        | Some d => inl d
        | None => inr (ThOther "SyntaxError" "Unexpected token in JSON")
        end
      else inl (DText (r_text response))
  | None => inl (DText (r_text response))
  end.

(* data?.message || response.statusText || 'API request failed' *)
Definition errorMessageOf (d : Data) (response : Response) : string :=
  match data_message d with
  | Some m => m
  | None => if truthy (r_statusText response) then r_statusText response
            else "API request failed"
  end.

(* The value returned on success: data, status 'success', statusCode. *)
Record Success := mkSuccess { s_data : Data; s_statusCode : Z }.

(* The body of the [try] block of executeRequest, for one fetch result:
   [inl] the success value, [inr] the exception it throws. *)
Definition tryBlock (fr : FetchResult) : Success + Thrown :=
  match fr with
  | FReject name msg => inr (ThOther name msg)
  | FRejectValue v => inr (ThValue v)
  | FResponse response =>
      match parseBody response with
      | inr e => inr e
      | inl d =>
          if negb (response_ok response) then
            let errorType := mapStatusToErrorType (r_status response) in
            let errorMessage := errorMessageOf d response in
            inr (ThApi (mkApiError errorMessage errorType (r_status response) d))
          else inl (mkSuccess d (r_status response))
      end
  end.

Inductive Outcome :=
| Done (s : Success)
| Threw (t : Thrown)
| OutOfFuel.

(* executeRequest: one fetch per call, a recursive call for each retry.
   [fuel] bounds the recursion; the second component lists the values of
   currentRetry at which fetch was called. *)
Fixpoint executeRequest (fetch : Z -> FetchResult) (retries : Z)
    (fuel : nat) (currentRetry : Z) : Outcome * list Z :=
  match fuel with
  | O => (OutOfFuel, [])
  | S fuel' =>
      let '(out, tr) :=
        match tryBlock (fetch currentRetry) with
        | inl s => (Done s, [])
        | inr error =>
            match error with
            | ThOther name msg =>
                if String.eqb name "AbortError" then
                  let isTimeout := String.eqb msg "timeout" in
                  let errorType := if isTimeout then TIMEOUT else CANCELED in
                  let errorMessage :=
                    if isTimeout then "Request timed out" else "Request canceled" in
                  (Threw (ThApi (mkApiError errorMessage errorType 0 (DOriginal name msg))), [])
                else
                  let apiError :=
                    mkApiError (if truthy msg then msg else "Network error")
                               NETWORK 0 (DOriginal name msg) in
                  if shouldRetry apiError currentRetry retries then
                    executeRequest fetch retries fuel' (currentRetry + 1)
                  else (Threw (ThApi apiError), [])
            | ThValue NNull =>
                (* error.name on null *)
                (Threw (ThOther "TypeError" "Cannot read properties of null (reading 'name')"), [])
            | ThValue v =>
                (* error.name and error.message are undefined *)
                let apiError := mkApiError "Network error" NETWORK 0 (DOriginalValue v) in
                if shouldRetry apiError currentRetry retries then
                  executeRequest fetch retries fuel' (currentRetry + 1)
                else (Threw (ThApi apiError), [])
            | ThApi e =>
                if shouldRetry e currentRetry retries then
                  executeRequest fetch retries fuel' (currentRetry + 1)
                else (Threw error, [])
            end
        end in
      (out, currentRetry :: tr)
  end.

(* apiRequest with the given number of retries. *)
Definition apiRequest (fetch : Z -> FetchResult) (retries : Z) : Outcome * list Z :=
  executeRequest fetch retries (S (Z.to_nat retries)) 0.

(* Cancellation wiring of apiRequest.  The fetch gets
   [signal || controller.signal]; the timer calls controller.abort('timeout').
   The environment is a timeline of events; an attempt settles at the first
   event that aborts the signal it was given, or at the server's response. *)
Inductive SignalSource := ControllerSignal | CallerSignal.

Definition requestSignal (callerSignal : bool) : SignalSource :=
  if callerSignal then CallerSignal else ControllerSignal.

Inductive Event :=
| TimerFires          (* setTimeout callback: controller.abort('timeout') *)
| CallerAborts        (* the caller aborts its own controller *)
| ServerResponds.

Inductive Settle :=
| Aborted (source : SignalSource)
| Responded
| Pending.

Fixpoint settle (sig : SignalSource) (events : list Event) : Settle :=
  match events with
  | [] => Pending
  | TimerFires :: es =>
      match sig with ControllerSignal => Aborted ControllerSignal | CallerSignal => settle sig es end
  | CallerAborts :: es =>
      match sig with CallerSignal => Aborted CallerSignal | ControllerSignal => settle sig es end
  | ServerResponds :: _ => Responded
  end.

(* What fetch rejects with when the signal it was given is aborted: the
   timer's controller.abort('timeout') aborts with the string 'timeout'; the
   caller of this repository (useApi) calls abort() without a reason, which
   gives an AbortError DOMException. *)
Definition abortRejection (sig : SignalSource) : FetchResult :=
  match sig with
  | ControllerSignal => FRejectValue (NPrim "timeout")
  | CallerSignal => FReject "AbortError" "signal is aborted without reason"
  end.

End Client.

(* ========================================================================= *)
Module Http.

(* JS values that flow as errors: the layer's ApiError(message, status, data,
   originalError), any other Error (its [name] and [message]), undefined, and
   the other values that are not Errors (null and primitives). *)
Inductive Thrown :=
| HApi (message : string) (status : Z) (data : Data) (originalError : option (string * string))
| HOther (name message : string)
| HUndefined
| HValue (v : NonError).

(* [x instanceof Error] *)
Definition isError (t : Thrown) : bool :=
  match t with HApi _ _ _ _ | HOther _ _ => true | _ => false end.

(* Does reading a property of [x] throw (x is undefined or null)? *)
Definition nullish (t : Thrown) : bool :=
  match t with HUndefined | HValue NNull => true | _ => false end.

(* The TypeError thrown by reading property [prop] of undefined or null. *)
Definition readTypeError (t : Thrown) (prop : string) : Thrown :=
  HOther "TypeError"
    ("Cannot read properties of " ++
     (match t with HValue NNull => "null" | _ => "undefined" end) ++
     " (reading '" ++ prop ++ "')").


(* ERROR_MESSAGES *)
Definition ERROR_MESSAGES (status : Z) : option string :=
  if status =? 400 then Some "The request was invalid"
  else if status =? 401 then Some "Authentication required"
  else if status =? 403 then Some "You do not have permission to access this resource"
  else if status =? 404 then Some "The requested resource was not found"
  else if status =? 408 then Some "The request timed out"
  else if status =? 409 then Some "The request conflicted with another request"
  else if status =? 422 then Some "Validation error"
  else if status =? 429 then Some "Too many requests - please try again later"
  else if status =? 500 then Some "An error occurred on the server"
  else if status =? 502 then Some "Bad gateway"
  else if status =? 503 then Some "Service unavailable - please try again later"
  else if status =? 504 then Some "Gateway timeout"
  else None.

(* Result of a call that may throw. *)
Inductive Step (A : Type) :=
| Ret (a : A)
| Throw (e : Thrown).
Arguments Ret {A} a.
Arguments Throw {A} e.

(* processResponse: the parser chosen from the Content-Type header. *)
Definition processResponse (response : Response) : Step Data :=
  let contentType := match r_contentType response with Some c => c | None => "" end in
  if includes contentType "application/json" then
    match r_json response with
    | Some d => Ret d
    | None => Throw (HOther "SyntaxError" "Unexpected token in JSON")
    end
  else if includes contentType "text/plain" || includes contentType "text/html" then
    Ret (DText (r_text response))
  else if includes contentType "application/octet-stream" then
    Ret DBlob
  else Ret DResponse.

(* ------------------------------------------------------------------------- *)
(* Interceptor registries: arrays of interceptor references, compared with
   === by indexOf; a reference is a [nat]. *)

Definition push (registry : list nat) (interceptor : nat) : list nat :=
  registry ++ [interceptor].

(* Array.prototype.indexOf, -1 when absent *)
Fixpoint indexOf (registry : list nat) (interceptor : nat) : Z :=
  match registry with
  | [] => -1
  | x :: rest =>
      if Nat.eqb x interceptor then 0
      else let i := indexOf rest interceptor in if i =? -1 then -1 else i + 1
  end.

(* registry.splice(index, 1) for 0 <= index *)
Definition splice1 (registry : list nat) (index : nat) : list nat :=
  firstn index registry ++ skipn (S index) registry.

(* The remover closure returned by add*Interceptor. *)
Definition remover (interceptor : nat) (registry : list nat) : list nat :=
  let index := indexOf registry interceptor in
  if negb (index =? -1) then splice1 registry (Z.to_nat index) else registry.

(* The three process-wide registries. *)
Record Registries := mkRegistries {
  requestInterceptors : list nat;
  responseInterceptors : list nat;
  errorInterceptors : list nat
}.

Inductive Chain := RequestChain | ResponseChain | ErrorChain.

Definition registry (c : Chain) (st : Registries) : list nat :=
  match c with
  | RequestChain => requestInterceptors st
  | ResponseChain => responseInterceptors st
  | ErrorChain => errorInterceptors st
  end.

Definition set_registry (c : Chain) (l : list nat) (st : Registries) : Registries :=
  match c with
  | RequestChain => mkRegistries l (responseInterceptors st) (errorInterceptors st)
  | ResponseChain => mkRegistries (requestInterceptors st) l (errorInterceptors st)
  | ErrorChain => mkRegistries (requestInterceptors st) (responseInterceptors st) l
  end.

(* addRequestInterceptor / addResponseInterceptor / addErrorInterceptor:
   the new registries and the remover, a state transformer. *)
Definition addInterceptor (c : Chain) (interceptor : nat) (st : Registries)
    : Registries * (Registries -> Registries) :=
  (set_registry c (push (registry c st) interceptor) st,
   fun st' => set_registry c (remover interceptor (registry c st')) st').

(* ------------------------------------------------------------------------- *)
(* The chains applied by [request].  An interceptor is its reference and the
   function it computes; a call either returns or throws. *)

(* The merged request configuration (only the fields the loop reads). *)
Record Config := mkConfig {
  cfg_retries : Z;
  cfg_retryDelay : Z;
  cfg_timeout : Z
}.

(* { data, status, headers } given to the response interceptors *)
Record Envelope := mkEnvelope { env_data : Data; env_status : Z }.

Record RequestInterceptor := mkRequestInterceptor {
  rq_ref : nat; rq_fn : Config -> Step Config }.
Record ResponseInterceptor := mkResponseInterceptor {
  rs_ref : nat; rs_fn : Envelope -> Step Envelope }.

(* What an error interceptor call does: return a value, or throw one. *)
Inductive IResult :=
| IRValue (v : Thrown)
| IRThrows (e : Thrown).

(* An interceptor returning null. *)
Abbreviation IRNull := (IRValue (HValue NNull)).

Record ErrorInterceptor := mkErrorInterceptor {
  er_ref : nat; er_fn : Thrown -> IResult }.

(* array.reduce((acc, interceptor) => interceptor(acc), x): no try/catch, so
   the first exception leaves the reduce. *)
Fixpoint reduceInterceptors {A : Type} (fs : list (A -> Step A)) (x : A) : Step A :=
  match fs with
  | [] => Ret x
  | f :: rest =>
      match f x with
      | Ret y => reduceInterceptors rest y
      | Throw e => Throw e
      end
  end.

Definition applyRequestInterceptors (rq : list RequestInterceptor) (config : Config)
    : Step Config :=
  reduceInterceptors (map rq_fn rq) config.

Definition applyResponseInterceptors (rs : list ResponseInterceptor) (response : Envelope)
    : Step Envelope :=
  reduceInterceptors (map rs_fn rs) response.

(* Result of applyErrorInterceptors: returns [Some err] / null, or throws. *)
Inductive ChainOut :=
| COk (r : option Thrown)
| CThrow (e : Thrown).

(* The for-of loop of applyErrorInterceptors from [currentError]; [error] is
   the original argument.  The catch block reads interceptorError.message and
   then error.message: either read throws a TypeError out of the function when
   the value is undefined or null.  The list gives the references of the
   interceptors called, in order. *)
Fixpoint errorLoop (error : Thrown) (es : list ErrorInterceptor) (currentError : Thrown)
    : ChainOut * list nat :=
  match es with
  | [] => (COk (Some currentError), [])
  | i :: rest =>
      let '(out, tr) :=
        match er_fn i currentError with
        | IRNull => (COk None, [])
        | IRValue result =>
            errorLoop error rest (if isError result then result else currentError)
        | IRThrows interceptorError =>
            if nullish interceptorError then (CThrow (readTypeError interceptorError "message"), [])
            else if nullish error then (CThrow (readTypeError error "message"), [])
            else errorLoop error rest currentError
        end in
      (out, er_ref i :: tr)
  end.

Definition applyErrorInterceptors (es : list ErrorInterceptor) (error : Thrown)
    : ChainOut * list nat :=
  errorLoop error es error.

(* ------------------------------------------------------------------------- *)
(* The retry loop of [request]. *)

(* processResponse(response).catch(() => null) *)
Definition errorDataOf (response : Response) : Data :=
  match processResponse response with Ret d => d | Throw _ => DNull end.

(* errorData?.message || ERROR_MESSAGES[status] || `Request failed with status ${status}` *)
Definition errorMessageOf (status : Z) (errorData : Data) : string :=
  match data_message errorData with
  | Some m => m
  | None =>
      match ERROR_MESSAGES status with
      | Some m => m
      | None => "Request failed with status " ++ string_of_Z status
      end
  end.

(* Statuses thrown at once by the try block. *)
Definition nonRetryableStatus (status : Z) : bool :=
  (status =? 400) || (status =? 401) || (status =? 403) || (status =? 404) || (status =? 422).

(* What the try block of one loop iteration does with a fetch result: return
   from request, throw, or fall through to [attempt++] with [lastError] set. *)
Inductive TryOut :=
| TReturn (env : Envelope)
| TThrow (e : Thrown)
| TNext (lastError : Thrown).

Definition tryBlock (rs : list ResponseInterceptor) (fr : FetchResult) : TryOut :=
  match fr with
  | FReject name msg => TThrow (HOther name msg)
  | FRejectValue v => TThrow (HValue v)
  | FResponse response =>
      if response_ok response then
        match processResponse response with
        | Throw e => TThrow e
        | Ret d =>
            match applyResponseInterceptors rs (mkEnvelope d (r_status response)) with
            | Ret env => TReturn env
            | Throw e => TThrow e
            end
        end
      else
        let errorData := errorDataOf response in
        let errorMessage := errorMessageOf (r_status response) errorData in
        let apiError := HApi errorMessage (r_status response) errorData None in
        if nonRetryableStatus (r_status response) then TThrow apiError
        else TNext apiError
  end.

(* The catch block's choice of [lastError], for an [error] that is not
   undefined or null (on those, error.name throws). *)
Definition catchError (error : Thrown) : Thrown :=
  match error with
  | HOther name msg =>
      if String.eqb name "AbortError" then
        HApi "Request timed out" 408 DNull (Some (name, msg))
      else if String.eqb name "TypeError" && String.eqb msg "Failed to fetch" then
        HApi "Network error - please check your connection" 0 DNull (Some (name, msg))
      else error
  | _ => error
  end.

(* The loop returns from request, exits with [lastError], or lets an
   exception out of its catch block. *)
Inductive LoopOut :=
| LReturn (env : Envelope)
| LExit (lastError : Thrown)
| LThrow (e : Thrown)
| LOutOfFuel.

(* while (attempt <= retries) { try { ... } catch (error) { ... } attempt++; }
   The catch block reads error.name, which throws a TypeError out of the loop
   when the exception is undefined or null.  The list gives the attempts at
   which fetch was called. *)
Fixpoint whileLoop (rs : list ResponseInterceptor) (fetch : Z -> FetchResult)
    (retries : Z) (fuel : nat) (attempt : Z) (lastError : Thrown) : LoopOut * list Z :=
  match fuel with
  | O => (LOutOfFuel, [])
  | S fuel' =>
      if attempt <=? retries then
        let '(out, tr) :=
          match tryBlock rs (fetch attempt) with
          | TReturn env => (LReturn env, [])
          | TNext apiError => whileLoop rs fetch retries fuel' (attempt + 1) apiError
          | TThrow error =>
              if nullish error then (LThrow (readTypeError error "name"), [])
              else
                let lastError' := catchError error in
                if attempt =? retries then (LExit lastError', [])
                else whileLoop rs fetch retries fuel' (attempt + 1) lastError'
          end in
        (out, attempt :: tr)
      else (LExit lastError, [])
  end.

Inductive Outcome :=
| Resolved (env : Envelope)
| ResolvedNull
| Rejected (e : Thrown)
| OutOfFuel.

(* request(url, options) of a client, with the registries' interceptors and the
   merged configuration; it returns the outcome and the attempts fetched. *)
Definition request (rq : list RequestInterceptor) (rs : list ResponseInterceptor)
    (es : list ErrorInterceptor) (config : Config) (fetch : Z -> FetchResult)
    : Outcome * list Z :=
  match applyRequestInterceptors rq config with
  | Throw e => (Rejected e, [])
  | Ret requestConfig =>
      let retries := cfg_retries requestConfig in
      match whileLoop rs fetch retries (S (S (Z.to_nat retries))) 0 HUndefined with
      | (LReturn env, tr) => (Resolved env, tr)
      | (LThrow e, tr) => (Rejected e, tr)
      | (LOutOfFuel, tr) => (OutOfFuel, tr)
      | (LExit lastError, tr) =>
          match fst (applyErrorInterceptors es lastError) with
          | CThrow e => (Rejected e, tr)
          | COk None | COk (Some (HValue NNull)) => (ResolvedNull, tr)
          | COk (Some processedError) => (Rejected processedError, tr)
          end
      end
  end.

End Http.

(* ========================================================================= *)
(* JS values and objects, for options, headers and hook arguments.            *)

Module Js.

Local Set Warnings "-register-all".

(* A JS value; an object is its own enumerable properties in insertion order. *)
Inductive JVal :=
| JUndef
| JNull
| JBool (b : bool)
| JNum (n : Z)
| JStr (s : string)
| JArr (xs : list JVal)
| JObj (props : list (string * JVal)).

Definition Props := list (string * JVal).

(* Property lookup: [None] when the key is absent. *)
Fixpoint lookup (o : Props) (k : string) : option JVal :=
  match o with
  | [] => None
  | (k', v) :: rest => if String.eqb k k' then Some v else lookup rest k
  end.

(* o[k] = v: overwrite in place, or append a new key. *)
Fixpoint set (o : Props) (k : string) (v : JVal) : Props :=
  match o with
  | [] => [(k, v)]
  | (k', v') :: rest => if String.eqb k k' then (k, v) :: rest else (k', v') :: set rest k v
  end.

(* { ...target, ...src } *)
Definition spread (target src : Props) : Props :=
  fold_left (fun acc kv => set acc (fst kv) (snd kv)) src target.

(* Index-keyed properties '0', '1', ... of a string or an array. *)
Fixpoint indexed (i : Z) (xs : list JVal) : Props :=
  match xs with
  | [] => []
  | x :: rest => (string_of_Z i, x) :: indexed (i + 1) rest
  end.

(* The own enumerable properties a spread copies from a value: an object's
   properties, the characters of a string and the elements of an array at
   their indices; undefined, null, booleans and numbers have none. *)
Definition ownProps (v : JVal) : Props :=
  match v with
  | JObj p => p
  | JStr s => indexed 0 (map (fun c => JStr (String c EmptyString)) (list_ascii_of_string s))
  | JArr xs => indexed 0 xs
  | _ => []
  end.

(* { ...target, ...v } for a value. *)
Definition spreadVal (target : Props) (v : JVal) : Props := spread target (ownProps v).

(* obj?.key *)
Definition get (v : JVal) (k : string) : JVal :=
  match v with
  | JObj p => match lookup p k with Some x => x | None => JUndef end
  | _ => JUndef
  end.

(* JS truthiness (NaN is not modelled). *)
Definition truthy (v : JVal) : bool :=
  match v with
  | JUndef | JNull => false
  | JBool b => b
  | JNum n => negb (n =? 0)
  | JStr s => negb (String.eqb s "")
  | JArr _ | JObj _ => true
  end.

(* String(v), as in a template literal. *)
Fixpoint toString (v : JVal) : string :=
  match v with
  | JUndef => "undefined"
  | JNull => "null"
  | JBool b => if b then "true" else "false"
  | JNum n => string_of_Z n
  | JStr s => s
  | JArr xs =>
      (fix join (xs : list JVal) : string :=
         match xs with
         | [] => ""
         | x :: rest =>
             let sx := match x with JUndef | JNull => "" | _ => toString x end in
             match rest with [] => sx | _ => sx ++ "," ++ join rest end
         end) xs
  | JObj _ => "[object Object]"
  end.

End Js.

(* ========================================================================= *)
(* client.js: request preparation and the api verbs.                         *)

Module ClientReq.
Import Js.

(* localStorage.getItem('app-storage'): absent (or ''), not valid JSON, or a
   parsed JSON value. *)
Inductive Stored :=
| SMissing
| SInvalidJson
| SJson (v : JVal).

(* getAuthToken: parsed?.state?.user?.token || null *)
Definition getAuthToken (authStorage : Stored) : option JVal :=
  match authStorage with
  | SJson parsed =>
      let token := get (get (get parsed "state") "user") "token" in
      if truthy token then Some token else None
  | _ => None
  end.

(* addAuthHeaders(headers) *)
Definition addAuthHeaders (authStorage : Stored) (headers : Props) : Props :=
  match getAuthToken authStorage with
  | Some token => spread (spread [] headers) [("Authorization", JStr ("Bearer " ++ toString token))]
  | None => headers
  end.

Definition DEFAULT_HEADERS : Props := [("Content-Type", JStr "application/json")].

(* requestHeaders of executeRequest; [auth] is the truthiness of options.auth
   (default true). *)
Definition requestHeaders (authStorage : Stored) (auth : bool) (headers : Props) : Props :=
  spread (spread (spread [] DEFAULT_HEADERS) headers)
         (if auth then addAuthHeaders authStorage headers else []).

(* `${env.API_URL}${endpoint.startsWith('/') ? endpoint : '/' + endpoint}` *)
Definition requestUrl (API_URL endpoint : string) : string :=
  API_URL ++ (if prefix "/" endpoint then endpoint else "/" ++ endpoint).

(* The options object each verb of [api] passes to apiRequest. *)
Definition get (options : Props) : Props := spread [("method", JStr "GET")] options.
Definition post (data : JVal) (options : Props) : Props :=
  spread [("method", JStr "POST"); ("body", data)] options.
Definition put (data : JVal) (options : Props) : Props :=
  spread [("method", JStr "PUT"); ("body", data)] options.
Definition patch (data : JVal) (options : Props) : Props :=
  spread [("method", JStr "PATCH"); ("body", data)] options.
Definition delete (options : Props) : Props := spread [("method", JStr "DELETE")] options.

(* The destructuring `method = 'GET'` of apiRequest: the default applies when
   the property is absent or undefined. *)
Definition method (options : Props) : JVal :=
  match lookup options "method" with
  | None | Some JUndef => JStr "GET"
  | Some m => m
  end.

(* The destructured [body] (undefined when absent). *)
Definition body (options : Props) : JVal :=
  match lookup options "body" with Some b => b | None => JUndef end.

End ClientReq.

(* ========================================================================= *)
(* http.js: client configuration, verbs and the default interceptors.        *)

Module HttpReq.
Import Js.

(* DEFAULT_CONFIG; [baseURL] is import.meta.env.VITE_API_URL or its fallback. *)
Definition DEFAULT_CONFIG (baseURL : string) : Props :=
  [("baseURL", JStr baseURL); ("timeout", JNum 30000);
   ("headers", JObj [("Content-Type", JStr "application/json");
                     ("Accept", JStr "application/json")]);
   ("retries", JNum 0); ("retryDelay", JNum 1000); ("cache", JBool false);
   ("credentials", JStr "same-origin")].

(* createHttpClient: { ...DEFAULT_CONFIG, ...customConfig } *)
Definition clientConfig (baseURL : string) (customConfig : Props) : Props :=
  spread (spread [] (DEFAULT_CONFIG baseURL)) customConfig.

(* The requestConfig of request, before the request interceptors:
   { ...config, ...options, headers: { ...config.headers, ...options.headers } } *)
Definition mergeConfig (config options : Props) : Props :=
  set (spread (spread [] config) options) "headers"
      (JObj (spreadVal (spreadVal [] (Js.get (JObj config) "headers"))
                       (Js.get (JObj options) "headers"))).

Section Verbs.
(* JSON.stringify, left abstract. *)
Variable JSON_stringify : JVal -> JVal.

(* The options each verb of the client passes to request. *)
Definition get (options : Props) : Props := set (spread [] options) "method" (JStr "GET").
Definition post (data : JVal) (options : Props) : Props :=
  set (set (spread [] options) "method" (JStr "POST")) "body" (JSON_stringify data).
Definition put (data : JVal) (options : Props) : Props :=
  set (set (spread [] options) "method" (JStr "PUT")) "body" (JSON_stringify data).
Definition patch (data : JVal) (options : Props) : Props :=
  set (set (spread [] options) "method" (JStr "PATCH")) "body" (JSON_stringify data).
Definition delete (options : Props) : Props := set (spread [] options) "method" (JStr "DELETE").
End Verbs.

(* The request interceptor registered by the module: [token] is
   localStorage.getItem('auth_token') (None for null). *)
Definition authRequestInterceptor (token : option string) (config : Props) : Props :=
  match token with
  | Some t =>
      if Js.truthy (JStr t) then
        set (spread [] config) "headers"
            (JObj (set (spreadVal [] (Js.get (JObj config) "headers"))
                       "Authorization" (JStr ("Bearer " ++ t))))
      else config
  | None => config
  end.

(* The browser state touched by the module's error interceptor. *)
Record Browser := mkBrowser {
  pathname : string;              (* window.location.pathname *)
  href : string;                  (* window.location.href *)
  auth_redirect : option string   (* localStorage 'auth_redirect' *)
}.

(* The error interceptor registered by the module. *)
Definition authErrorInterceptor (b : Browser) (error : Http.Thrown) : Browser * Http.IResult :=
  match error with
  | Http.HApi _ status _ _ =>
      if (status =? 401) && negb (includes (pathname b) "/login") then
        (mkBrowser (pathname b) "/login" (Some (pathname b)), Http.IRNull)
      else (b, Http.IRValue error)
  | _ => (b, Http.IRValue error)
  end.

End HttpReq.

(* ========================================================================= *)
(* hooks/useApi.js: the execute function of useApi.                           *)

Module Hook.
Import Js.

(* apiCallArgs: the signal goes into a trailing plain-object argument, or is
   appended as a new { signal } argument. *)
Definition apiCallArgs (args : list JVal) (signal : JVal) : list JVal :=
  let options := last args JUndef in
  let isOptionsObject := match options with JObj _ => true | _ => false end in
  if isOptionsObject then removelast args ++ [JObj (set (spreadVal [] options) "signal" signal)]
  else args ++ [JObj [("signal", signal)]].

(* useApiPost's apiCall (data, callOptions) => api.post(endpoint, data, callOptions):
   the options object it gives apiRequest ([callOptions] defaults to {}). *)
Definition postApiCall (args : list JVal) : Props :=
  let data := nth 0 args JUndef in
  let callOptions := ownProps (nth 1 args JUndef) in
  ClientReq.post data callOptions.

(* useApiGet's apiCall (callParams = params) => api.get(endpoint, { params: callParams }):
   the options object it gives apiRequest; [params] is the hook's option. *)
Definition getApiCall (params : JVal) (args : list JVal) : Props :=
  let callParams := match nth 0 args JUndef with JUndef => params | p => p end in
  ClientReq.get [("params", callParams)].

(* useApiDelete's apiCall (callOptions) => api.delete(endpoint, callOptions). *)
Definition deleteApiCall (args : list JVal) : Props :=
  ClientReq.delete (ownProps (nth 0 args JUndef)).

(* The hook's state. *)
Record HookState := mkHookState {
  data : Data;
  loading : bool;
  error : option Client.Thrown
}.

Inductive ExecResult :=
| Returned (response : Client.Success)
| ReturnedCanceled                   (* { status: ApiStatus.CANCELED } *)
| Rethrown (err : Client.Thrown).

(* err.type *)
Definition errType (err : Client.Thrown) : option Client.ErrorType :=
  match err with
  | Client.ThApi e => Some (Client.type e)
  | Client.ThOther _ _ | Client.ThValue _ => None
  end.

(* execute, after the apiCall settles with a response or an exception. *)
Definition execute (st : HookState) (settled : Client.Success + Client.Thrown)
    : HookState * ExecResult :=
  (* setLoading(true); setError(null) *)
  let st1 := mkHookState (data st) true None in
  match settled with
  | inl response => (mkHookState (Client.s_data response) false None, Returned response)
  | inr (Client.ThValue NNull) =>
      (* err.type on null: a TypeError leaves the catch block *)
      (st1, Rethrown (Client.ThOther "TypeError" "Cannot read properties of null (reading 'type')"))
  | inr err =>
      match errType err with
      | Some Client.CANCELED => (st1, ReturnedCanceled)
      | _ => (mkHookState (data st1) false (Some err), Rethrown err)
      end
  end.

End Hook.

(* ========================================================================= *)
(* Sample inputs                                                              *)

(* A 401 response with a JSON body that has no message field. *)
Definition r401 : Response :=
  mkResponse 401 "Unauthorized" (Some "application/json; charset=utf-8") (Some (DJson None)) "".


(* A 200 response with an image body. *)
Definition r200_png : Response :=
  mkResponse 200 "OK" (Some "image/png") None "PNG".

(* A 500 response without a content type. *)
Definition r500 : Response :=
  mkResponse 500 "Internal Server Error" None None "".

(* A merged configuration with the given number of retries. *)
Definition config_with (retries : Z) : Http.Config := Http.mkConfig retries 1000 30000.

(* An interceptor that throws. *)
Definition interceptor_bug : Http.Thrown := Http.HOther "Error" "interceptor bug".

(* Error interceptors: one passing the error on, one handling it, one throwing. *)
Definition ei_pass : Http.ErrorInterceptor := Http.mkErrorInterceptor 1 (fun e => Http.IRValue e).
Definition ei_handle : Http.ErrorInterceptor := Http.mkErrorInterceptor 2 (fun _ => Http.IRNull).
Definition ei_throw : Http.ErrorInterceptor :=
  Http.mkErrorInterceptor 3 (fun _ => Http.IRThrows interceptor_bug).

(* An error interceptor that throws undefined. *)
Definition ei_throw_undefined : Http.ErrorInterceptor :=
  Http.mkErrorInterceptor 4 (fun _ => Http.IRThrows Http.HUndefined).

(* Event filter: the timeline without the timer. *)
Definition no_timer (e : Client.Event) : bool :=
  match e with Client.TimerFires => false | _ => true end.

(* Are the keys of an object literal distinct? *)
Fixpoint keys_distinct (ks : list string) : bool :=
  match ks with
  | [] => true
  | k :: rest => negb (existsb (String.eqb k) rest) && keys_distinct rest
  end.

(* The browser on a page other than the login page. *)
Definition on_dashboard : HttpReq.Browser := HttpReq.mkBrowser "/dashboard" "/dashboard" None.

(* ========================================================================= *)
(* Properties                                                                 *)

(** C7: mapStatusToErrorType is a total function of the status code that
    gives SERVER for status >= 500, AUTH for 401 and 403, NOT_FOUND for 404,
    VALIDATION for 422 and UNKNOWN for every other status. *)
Theorem mapStatusToErrorType_table : forall s : Z,
  (500 <= s -> Client.mapStatusToErrorType s = Client.SERVER) /\
  (s = 401 \/ s = 403 -> Client.mapStatusToErrorType s = Client.AUTH) /\
  (s = 404 -> Client.mapStatusToErrorType s = Client.NOT_FOUND) /\
  (s = 422 -> Client.mapStatusToErrorType s = Client.VALIDATION) /\
  (s < 500 -> s <> 401 -> s <> 403 -> s <> 404 -> s <> 422 ->
   Client.mapStatusToErrorType s = Client.UNKNOWN).
Proof.
  intro s; unfold Client.mapStatusToErrorType.
  repeat split; intros;
    repeat match goal with
           | H : _ \/ _ |- _ => destruct H
           end; subst;
    try reflexivity;
    repeat match goal with
           | |- context [Z.geb ?a ?b] => destruct (Z.geb_spec a b); try lia
           | |- context [Z.eqb ?a ?b] => destruct (Z.eqb_spec a b); try lia
           end; simpl; reflexivity.
Qed.

(** C3 (counterexample): a SERVER error whose statusCode is below 500 is not
    retried although the attempt cap is not reached. *)
Lemma shouldRetry_server_status0_false :
  Client.shouldRetry (Client.mkApiError "Request failed" Client.SERVER 0 DNull) 0 1 = false.
Proof. reflexivity. Qed.

(** C3 (amended): shouldRetry returns false once retryCount >= maxRetries;
    false for AUTH, VALIDATION and CANCELED; true below the cap for NETWORK and
    TIMEOUT; below the cap for SERVER exactly when statusCode >= 500; false for
    NOT_FOUND and UNKNOWN; and every SERVER kind given by mapStatusToErrorType
    comes with a status >= 500. *)
Theorem shouldRetry_spec : forall (e : Client.ApiError) (retryCount maxRetries : Z),
  (maxRetries <= retryCount -> Client.shouldRetry e retryCount maxRetries = false) /\
  (Client.type e = Client.AUTH \/ Client.type e = Client.VALIDATION \/
   Client.type e = Client.CANCELED -> Client.shouldRetry e retryCount maxRetries = false) /\
  (retryCount < maxRetries ->
   Client.type e = Client.NETWORK \/ Client.type e = Client.TIMEOUT ->
   Client.shouldRetry e retryCount maxRetries = true) /\
  (retryCount < maxRetries -> Client.type e = Client.SERVER ->
   Client.shouldRetry e retryCount maxRetries = (Client.statusCode e >=? 500)) /\
  (Client.type e = Client.NOT_FOUND \/ Client.type e = Client.UNKNOWN ->
   Client.shouldRetry e retryCount maxRetries = false) /\
  (forall s, Client.mapStatusToErrorType s = Client.SERVER -> 500 <= s).
Proof.
  intros e rc mx; unfold Client.shouldRetry.
  repeat split; intros;
    repeat match goal with
           | H : _ \/ _ |- _ => destruct H
           end;
    try (destruct (Z.geb_spec rc mx); [reflexivity | lia]);
    try (destruct (Z.geb_spec rc mx); [lia |]);
    try (match goal with H : Client.type e = _ |- _ => rewrite H end; reflexivity).
  unfold Client.mapStatusToErrorType in *.
  destruct (Z.geb_spec s 500); [lia |].
  destruct ((s =? 401) || (s =? 403)); [discriminate |].
  destruct (s =? 404); [discriminate |].
  destruct (s =? 422); discriminate.
Qed.

(** C8: for attempt n in 1..5 and a draw r of Math.random() in [0, 1),
    getRetryDelay n = min(3000, 300 * 2^n) * (1 + 0.2 * (r - 0.5)); the factor
    lies in [0.9, 1.1), so the delay lies within [0.8, 1.2] * min(3000, 300 * 2^n).
    (Exact rational arithmetic stands for the double computation.) *)
Theorem getRetryDelay_bounds : forall (n : Z) (r : Q),
  1 <= n <= 5 -> (0 <= r < 1)%Q ->
  let m := inject_Z (Z.min 3000 (300 * 2 ^ n)) in
  (Client.getRetryDelay n r == m * (1 + (2 # 10) * (r - (1 # 2))))%Q /\
  ((9 # 10) * m <= Client.getRetryDelay n r < (11 # 10) * m)%Q /\
  ((8 # 10) * m <= Client.getRetryDelay n r <= (12 # 10) * m)%Q.
Proof.
  intros n r Hn [Hr0 Hr1] m.
  assert (Heq : (Client.getRetryDelay n r == m * (1 + (2 # 10) * (r - (1 # 2))))%Q)
    by (unfold Client.getRetryDelay, m; ring).
  split; [exact Heq |]; rewrite Heq.
  assert (Hm : m = 600%Q \/ m = 1200%Q \/ m = 2400%Q \/ m = 3000%Q).
  { unfold m.
    assert (n = 1 \/ n = 2 \/ n = 3 \/ n = 4 \/ n = 5) as Hc by lia.
    destruct Hc as [-> | [-> | [-> | [-> | ->]]]]; cbv; auto 6. }
  destruct Hm as [-> | [-> | [-> | ->]]]; split; split; lra.
Qed.

(** C8 (witness): the bounds at n = 1 and r = 0. *)
Lemma getRetryDelay_bounds_witness :
  (1 <= 1 <= 5 /\ (0 <= 0 < 1)%Q) /\
  ((8 # 10) * inject_Z (Z.min 3000 (300 * 2 ^ 1)) <= Client.getRetryDelay 1 0
   <= (12 # 10) * inject_Z (Z.min 3000 (300 * 2 ^ 1)))%Q.
Proof.
  split.
  - split; [lia | lra].
  - refine (proj2 (proj2 (getRetryDelay_bounds 1 0 _ _))); [lia | lra].
Defined.

(** C1 (code_bug evidence): with retries = 2 and a server answering 401 every
    time, http.js request fetches three times (attempts 0, 1 and 2) before
    rejecting, while client.js apiRequest fetches once. *)
Theorem request_401_is_retried :
  Http.request [] [] [] (config_with 2) (fun _ => FResponse r401) =
    (Http.Rejected (Http.HApi "Authentication required" 401 (DJson None) None), [0; 1; 2]) /\
  Client.apiRequest (fun _ => FResponse r401) 2 =
    (Client.Threw (Client.ThApi (Client.mkApiError "Unauthorized" Client.AUTH 401 (DJson None))), [0]).
Proof. split; reflexivity. Qed.

(* ------------------------------------------------------------------------- *)
(* client.js: every failure of apiRequest is an ApiError. *)


Lemma shouldRetry_below_cap (e : Client.ApiError) (rc mx : Z) :
  Client.shouldRetry e rc mx = true -> rc < mx.
Proof.
  unfold Client.shouldRetry. destruct (Z.geb_spec rc mx); [discriminate | lia].
Qed.



(* ------------------------------------------------------------------------- *)
(* http.js: the value left by the retry loop. *)







(* ------------------------------------------------------------------------- *)
(* http.js: the error interceptor chain. *)

Lemma errorLoop_app :
  forall (error : Http.Thrown) (pre rest : list Http.ErrorInterceptor) (cur c : Http.Thrown)
         (t : list nat),
  Http.errorLoop error pre cur = (Http.COk (Some c), t) ->
  Http.errorLoop error (pre ++ rest)%list cur =
    (fst (Http.errorLoop error rest c), (t ++ snd (Http.errorLoop error rest c))%list).
Proof.
  induction pre as [| i pre IH]; intros rest cur c t H.
  - cbn in H. injection H as Hc Ht; subst. cbn. destruct (Http.errorLoop error rest c); reflexivity.
  - cbn [app Http.errorLoop] in *.
    destruct (Http.er_fn i cur) as [v | x].
    + destruct v as [m st d o | n m | | [| p]]; try discriminate;
        cbn [Http.isError] in H |- *;
        destruct (Http.errorLoop error pre _) as [o' t'] eqn:E;
        injection H as -> <-; rewrite (IH rest _ c t' E); reflexivity.
    + destruct (Http.nullish x); [discriminate |].
      destruct (Http.nullish error); [discriminate |].
      destruct (Http.errorLoop error pre cur) as [o' t'] eqn:E.
      injection H as -> <-. rewrite (IH rest _ c t' E). reflexivity.
Qed.

(** C4: when the retry loop of request exits with [lastError] (a terminal
    error), the chain reaches an error interceptor [i] (the interceptors
    before it returned, or threw a value that the catch block can log, neither
    undefined nor null), and [i] returns null for the error it receives, then
    the chain returns null having called only the interceptors up to [i], and
    request resolves with null. *)
Theorem error_interceptor_null_short_circuits :
  forall rq rs (es pre post : list Http.ErrorInterceptor) (i : Http.ErrorInterceptor)
         config requestConfig fetch lastError tr cur trpre,
  Http.applyRequestInterceptors rq config = Http.Ret requestConfig ->
  Http.whileLoop rs fetch (Http.cfg_retries requestConfig)
    (S (S (Z.to_nat (Http.cfg_retries requestConfig)))) 0 Http.HUndefined =
    (Http.LExit lastError, tr) ->
  es = (pre ++ i :: post)%list ->
  Http.errorLoop lastError pre lastError = (Http.COk (Some cur), trpre) ->
  Http.er_fn i cur = Http.IRNull ->
  Http.applyErrorInterceptors es lastError = (Http.COk None, (trpre ++ [Http.er_ref i])%list) /\
  Http.request rq rs es config fetch = (Http.ResolvedNull, tr).
Proof.
  intros rq rs es pre post i config rc fetch le tr cur trpre Hrq Hw -> Hpre Hi.
  assert (Hc : Http.applyErrorInterceptors (pre ++ i :: post)%list le =
               (Http.COk None, (trpre ++ [Http.er_ref i])%list)).
  { unfold Http.applyErrorInterceptors. rewrite (errorLoop_app _ _ _ _ _ _ Hpre).
    cbn. rewrite Hi. reflexivity. }
  split; [exact Hc |].
  unfold Http.request. rewrite Hrq, Hw, Hc. reflexivity.
Qed.

(** C4 (witness): a 500 response with no retry; the chain [ei_pass; ei_handle;
    ei_throw] stops at ei_handle, and request resolves with null. *)
Lemma error_interceptor_null_short_circuits_witness :
  (Http.applyRequestInterceptors [] (config_with 0) = Http.Ret (config_with 0) /\
   Http.whileLoop [] (fun _ => FResponse r500) 0 (S (S (Z.to_nat 0))) 0 Http.HUndefined =
     (Http.LExit (Http.HApi "An error occurred on the server" 500 DResponse None), [0]) /\
   Http.errorLoop (Http.HApi "An error occurred on the server" 500 DResponse None) [ei_pass]
     (Http.HApi "An error occurred on the server" 500 DResponse None) =
     (Http.COk (Some (Http.HApi "An error occurred on the server" 500 DResponse None)), [1%nat]) /\
   Http.er_fn ei_handle (Http.HApi "An error occurred on the server" 500 DResponse None) = Http.IRNull) /\
  (Http.applyErrorInterceptors [ei_pass; ei_handle; ei_throw]
     (Http.HApi "An error occurred on the server" 500 DResponse None) =
     (Http.COk None, ([1%nat] ++ [Http.er_ref ei_handle])%list) /\
   Http.request [] [] [ei_pass; ei_handle; ei_throw] (config_with 0) (fun _ => FResponse r500) =
     (Http.ResolvedNull, [0])).
Proof.
  split; [repeat split |].
  apply (error_interceptor_null_short_circuits [] [] [ei_pass; ei_handle; ei_throw] [ei_pass]
           [ei_throw] ei_handle (config_with 0) (config_with 0) (fun _ => FResponse r500)
           (Http.HApi "An error occurred on the server" 500 DResponse None) [0]
           (Http.HApi "An error occurred on the server" 500 DResponse None) [1%nat]);
    reflexivity.
Defined.

(** C5 (code_bug evidence): an exception thrown by a request interceptor is not
    caught: request rejects with it before any fetch.  An exception thrown by a
    response interceptor is caught by the retry loop's catch block: the request
    is retried and finally rejects with that exception.  The error chain, by
    contrast, skips a throwing interceptor and keeps the error it received. *)
Theorem interceptor_exceptions_escape :
  Http.request [Http.mkRequestInterceptor 1 (fun _ => Http.Throw interceptor_bug)] [] []
    (config_with 1) (fun _ => FResponse r500) = (Http.Rejected interceptor_bug, []) /\
  Http.request [] [Http.mkResponseInterceptor 1 (fun _ => Http.Throw interceptor_bug)] []
    (config_with 1) (fun _ => FResponse (mkResponse 200 "OK" None None "")) =
    (Http.Rejected interceptor_bug, [0; 1]) /\
  Http.applyErrorInterceptors [ei_throw; ei_pass]
    (Http.HApi "An error occurred on the server" 500 DResponse None) =
    (Http.COk (Some (Http.HApi "An error occurred on the server" 500 DResponse None)), [3%nat; 1%nat]).
Proof. repeat split. Qed.

(* ------------------------------------------------------------------------- *)
(* client.js: timeout and cancellation. *)

Lemma settle_caller_filter : forall events,
  Client.settle Client.CallerSignal events =
  Client.settle Client.CallerSignal (filter no_timer events).
Proof.
  induction events as [| [] es IH]; cbn; auto.
Qed.

Lemma settle_source : forall sig events,
  Client.settle sig events = Client.Aborted Client.ControllerSignal ->
  sig = Client.ControllerSignal.
Proof.
  intros sig events; induction events as [| [] es IH]; destruct sig; cbn; auto; discriminate.
Qed.

(* When every attempt fails with an error that is retried while retries
   remain, executeRequest runs every retry count up to [retries] and throws
   the error of the last attempt. *)
Lemma executeRequest_persistent :
  forall (fetch : Z -> FetchResult) (retries : Z) (F : Z -> Client.ApiError),
  (forall a, Client.tryBlock (fetch a) = inr (Client.ThApi (F a)) \/
     (exists name msg, Client.tryBlock (fetch a) = inr (Client.ThOther name msg) /\
        String.eqb name "AbortError" = false /\
        F a = Client.mkApiError (if truthy msg then msg else "Network error")
                                Client.NETWORK 0 (DOriginal name msg)) \/
     (exists p, Client.tryBlock (fetch a) = inr (Client.ThValue (NPrim p)) /\
        F a = Client.mkApiError "Network error" Client.NETWORK 0 (DOriginalValue (NPrim p)))) ->
  (forall a rc mx, Client.shouldRetry (F a) rc mx = negb (rc >=? mx)) ->
  forall fuel s, (1 <= fuel)%nat -> retries + 1 <= Z.of_nat s + Z.of_nat fuel ->
  Client.executeRequest fetch retries fuel (Z.of_nat s) =
    (Client.Threw (Client.ThApi (F (Z.max (Z.of_nat s) retries))),
     map Z.of_nat (seq s (S (Z.to_nat (retries - Z.of_nat s))))).
Proof.
  intros fetch retries F HF Hr. induction fuel as [| fuel IH]; intros s H1 H2; [lia |].
  cbn [Client.executeRequest].
  assert (Hstep : (let '(out, tr) :=
      if Client.shouldRetry (F (Z.of_nat s)) (Z.of_nat s) retries
      then Client.executeRequest fetch retries fuel (Z.of_nat s + 1)
      else (Client.Threw (Client.ThApi (F (Z.of_nat s))), []) in (out, Z.of_nat s :: tr)) =
    (Client.Threw (Client.ThApi (F (Z.max (Z.of_nat s) retries))),
     map Z.of_nat (seq s (S (Z.to_nat (retries - Z.of_nat s)))))).
  { rewrite Hr. destruct (Z.geb_spec (Z.of_nat s) retries) as [Hge | Hlt]; cbn [negb].
    - rewrite Z.max_l by lia. replace (Z.to_nat (retries - Z.of_nat s)) with 0%nat by lia.
      reflexivity.
    - replace (Z.of_nat s + 1) with (Z.of_nat (S s)) by lia.
      rewrite IH by lia. rewrite !Z.max_r by lia.
      replace (Z.to_nat (retries - Z.of_nat s)) with (S (Z.to_nat (retries - Z.of_nat (S s))))
        by lia.
      reflexivity. }
  destruct (HF (Z.of_nat s)) as [Ht | [(name & msg & Ht & Hn & HFa) | (p & Ht & HFa)]]; rewrite Ht.
  - exact Hstep.
  - rewrite Hn. cbv zeta. rewrite <- HFa. exact Hstep.
  - cbv beta iota zeta. rewrite <- HFa. exact Hstep.
Qed.

(** C6 (code_bug evidence): apiRequest gives fetch the caller's signal when
    there is one, so with a caller signal the timer never aborts the attempt.
    Without one, the timer's controller.abort('timeout') makes fetch reject
    with the string 'timeout', not an AbortError; every retry reuses the
    aborted signal and is rejected the same way.  executeRequest treats the
    string as a network failure: it retries it and finally throws a NETWORK
    ApiError 'Network error' after max(retries, 0) + 1 fetches, never a
    TIMEOUT one.  The caller's abort() (as useApi calls it) gives an
    AbortError, thrown at once as a CANCELED ApiError. *)
Theorem timeout_abort_is_network_error :
  forall (events : list Client.Event) (retries : Z),
  (Client.settle (Client.requestSignal true) events =
     Client.settle (Client.requestSignal true) (filter no_timer events) /\
   Client.settle (Client.requestSignal true) events <> Client.Aborted Client.ControllerSignal) /\
  Client.apiRequest (fun _ => Client.abortRejection (Client.requestSignal false)) retries =
    (Client.Threw (Client.ThApi
       (Client.mkApiError "Network error" Client.NETWORK 0 (DOriginalValue (NPrim "timeout")))),
     map Z.of_nat (seq 0 (S (Z.to_nat retries)))) /\
  Client.apiRequest (fun _ => Client.abortRejection (Client.requestSignal true)) retries =
    (Client.Threw (Client.ThApi
       (Client.mkApiError "Request canceled" Client.CANCELED 0
          (DOriginal "AbortError" "signal is aborted without reason"))), [0]).
Proof.
  intros events retries. split; [split | split].
  - apply settle_caller_filter.
  - intro H. apply settle_source in H. discriminate.
  - unfold Client.apiRequest.
    change (Client.executeRequest ?f retries (S (Z.to_nat retries)) 0)
      with (Client.executeRequest f retries (S (Z.to_nat retries)) (Z.of_nat 0)).
    rewrite executeRequest_persistent with
      (F := fun _ => Client.mkApiError "Network error" Client.NETWORK 0
                       (DOriginalValue (NPrim "timeout"))); [| | | lia | lia].
    + rewrite Z.sub_0_r. reflexivity.
    + intro a. right; right. exists "timeout". split; reflexivity.
    + intros a rc mx. unfold Client.shouldRetry. destruct (rc >=? mx); reflexivity.
  - unfold Client.apiRequest. cbn. reflexivity.
Qed.

(* ------------------------------------------------------------------------- *)
(* Body parsing. *)

(** C9 (counterexample): http.js processResponse on a response whose content
    type is not recognised ('image/png') returns the Response object itself,
    not its text. *)
Lemma processResponse_unrecognised_raw :
  Http.processResponse r200_png = Http.Ret DResponse /\
  Http.processResponse r200_png <> Http.Ret (DText (r_text r200_png)).
Proof. split; [reflexivity | discriminate]. Qed.

(** C9 (amended): http.js processResponse reads the Content-Type header (''
    when absent): if it includes 'application/json' the body is JSON-parsed (a
    parse failure throws); else if it includes 'text/plain' or 'text/html' the
    body is read as text; else if it includes 'application/octet-stream' as a
    blob; otherwise the Response object itself is returned unparsed.  client.js
    parses JSON when the header includes 'application/json' and text otherwise. *)
Theorem body_parsing_strategy : forall (r : Response),
  let ct := match r_contentType r with Some c => c | None => "" end in
  (includes ct "application/json" = true ->
   Http.processResponse r =
     match r_json r with
     | Some d => Http.Ret d
     | None => Http.Throw (Http.HOther "SyntaxError" "Unexpected token in JSON")
     end) /\
  (includes ct "application/json" = false ->
   includes ct "text/plain" = true \/ includes ct "text/html" = true ->
   Http.processResponse r = Http.Ret (DText (r_text r))) /\
  (includes ct "application/json" = false -> includes ct "text/plain" = false ->
   includes ct "text/html" = false -> includes ct "application/octet-stream" = true ->
   Http.processResponse r = Http.Ret DBlob) /\
  (includes ct "application/json" = false -> includes ct "text/plain" = false ->
   includes ct "text/html" = false -> includes ct "application/octet-stream" = false ->
   Http.processResponse r = Http.Ret DResponse) /\
  (includes ct "application/json" = true ->
   Client.parseBody r =
     match r_json r with
     | Some d => inl d
     | None => inr (Client.ThOther "SyntaxError" "Unexpected token in JSON")
     end) /\
  (includes ct "application/json" = false -> Client.parseBody r = inl (DText (r_text r))).
Proof.
  intros r ct. unfold Http.processResponse, Client.parseBody. fold ct.
  repeat split; intros;
    repeat match goal with
           | H : _ \/ _ |- _ => destruct H
           | H : includes ct _ = _ |- _ => rewrite H
           end; cbn; try reflexivity.
  - destruct (includes ct "text/plain"); reflexivity.
  - destruct (r_contentType r) as [c |] eqn:E; subst ct; [rewrite H; reflexivity | discriminate].
  - destruct (r_contentType r) as [c |] eqn:E; subst ct; [rewrite H; reflexivity | reflexivity].
Qed.

(* ------------------------------------------------------------------------- *)
(* Interceptor registries. *)

(** C10 (counterexample): after the same interceptor (reference 7) is added
    twice to the error registry, the remover returned by the second add
    removes one occurrence per call, so its second call changes the registry. *)
Lemma remover_twice_changes_registry :
  let '(st1, _) := Http.addInterceptor Http.ErrorChain 7 (Http.mkRegistries [] [] []) in
  let '(st2, rem) := Http.addInterceptor Http.ErrorChain 7 st1 in
  rem st2 = Http.mkRegistries [] [] [7%nat] /\
  rem (rem st2) = Http.mkRegistries [] [] [] /\
  rem (rem st2) <> rem st2.
Proof. cbn. split; [reflexivity | split; [reflexivity | discriminate]]. Qed.

Lemma indexOf_cases : forall (l : list nat) (f : nat),
  (~ In f l /\ Http.indexOf l f = -1) \/
  exists l1 l2, l = (l1 ++ f :: l2)%list /\ ~ In f l1 /\
                Http.indexOf l f = Z.of_nat (List.length l1).
Proof.
  induction l as [| x l IH]; intro f; cbn.
  - left; auto.
  - destruct (Nat.eqb_spec x f) as [-> | Hne].
    + right. exists [], l. cbn. auto.
    + destruct (IH f) as [[Hn Hi] | (l1 & l2 & -> & Hn & Hi)].
      * left. rewrite Hi. cbn. split; [intros [H | H]; auto | reflexivity].
      * right. exists (x :: l1), l2. rewrite Hi.
        destruct (Z.eqb_spec (Z.of_nat (List.length l1)) (-1)); [lia |].
        cbn [app List.length]. split; [reflexivity | split].
        -- intros [H | H]; auto.
        -- lia.
Qed.

Lemma splice1_middle : forall (l1 l2 : list nat) (f : nat),
  Http.splice1 (l1 ++ f :: l2)%list (List.length l1) = (l1 ++ l2)%list.
Proof.
  intros l1 l2 f. unfold Http.splice1.
  rewrite firstn_app, skipn_app, Nat.sub_diag, firstn_all, firstn_O, app_nil_r.
  replace (S (List.length l1) - List.length l1)%nat with 1%nat by lia.
  rewrite skipn_all2 by lia. reflexivity.
Qed.

Lemma remover_cases : forall (l : list nat) (f : nat),
  (~ In f l /\ Http.remover f l = l) \/
  exists l1 l2, l = (l1 ++ f :: l2)%list /\ ~ In f l1 /\ Http.remover f l = (l1 ++ l2)%list.
Proof.
  intros l f. unfold Http.remover.
  destruct (indexOf_cases l f) as [[Hn Hi] | (l1 & l2 & -> & Hn & Hi)].
  - left. rewrite Hi. auto.
  - right. exists l1, l2. rewrite Hi.
    destruct (Z.eqb_spec (Z.of_nat (List.length l1)) (-1)); [lia |].
    cbn. rewrite Nat2Z.id, splice1_middle. auto.
Qed.

Lemma remover_absent : forall (l : list nat) (f : nat), ~ In f l -> Http.remover f l = l.
Proof.
  intros l f Hn. destruct (remover_cases l f) as [[_ H] | (l1 & l2 & -> & _ & _)]; auto.
  exfalso. apply Hn. apply in_or_app. right; left; reflexivity.
Qed.

Lemma registry_set : forall c c' l st,
  Http.registry c' (Http.set_registry c l st) =
  if match c, c' with
     | Http.RequestChain, Http.RequestChain | Http.ResponseChain, Http.ResponseChain
     | Http.ErrorChain, Http.ErrorChain => true
     | _, _ => false
     end then l else Http.registry c' st.
Proof. intros [] [] l [? ? ?]; reflexivity. Qed.

Lemma set_registry_same : forall c st, Http.set_registry c (Http.registry c st) st = st.
Proof. intros [] [? ? ?]; reflexivity. Qed.

(** C10 (amended): adding interceptor f to a registry appends it at the end
    and leaves the other registries alone.  The returned remover, applied to
    any later state, deletes the first occurrence of f in that registry,
    keeping the order of the other entries and the other registries, and
    changes nothing when f is absent; so a second call is a no-op whenever f
    occurred at most once. *)
Theorem addInterceptor_remover :
  forall (c : Http.Chain) (f : nat) (st : Http.Registries),
  let '(st', rem) := Http.addInterceptor c f st in
  Http.registry c st' = (Http.registry c st ++ [f])%list /\
  (forall c', c' <> c -> Http.registry c' st' = Http.registry c' st) /\
  (forall st'' : Http.Registries,
     (forall c', c' <> c -> Http.registry c' (rem st'') = Http.registry c' st'') /\
     (~ In f (Http.registry c st'') -> rem st'' = st'') /\
     (In f (Http.registry c st'') ->
      exists l1 l2, Http.registry c st'' = (l1 ++ f :: l2)%list /\ ~ In f l1 /\
                    Http.registry c (rem st'') = (l1 ++ l2)%list) /\
     ((count_occ Nat.eq_dec (Http.registry c st'') f <= 1)%nat ->
      rem (rem st'') = rem st'')).
Proof.
  intros c f st. cbn [Http.addInterceptor].
  assert (Hself : forall l st0, Http.registry c (Http.set_registry c l st0) = l)
    by (intros l st0; rewrite registry_set; destruct c; reflexivity).
  assert (Hother : forall c' l st0, c' <> c ->
            Http.registry c' (Http.set_registry c l st0) = Http.registry c' st0)
    by (intros c' l st0 Hne; rewrite registry_set; destruct c, c'; congruence).
  split; [apply Hself | split; [intros; apply Hother; auto |]].
  intro st''. split; [intros; apply Hother; auto | split; [| split]].
  - intro Hn. rewrite (remover_absent _ _ Hn). apply set_registry_same.
  - intro Hin. rewrite Hself.
    destruct (remover_cases (Http.registry c st'') f)
      as [[Hn _] | (l1 & l2 & Hl & Hn & Hr)]; [contradiction |].
    exists l1, l2. auto.
  - intro Hcount. rewrite Hself.
    destruct (remover_cases (Http.registry c st'') f)
      as [[Hn Hr] | (l1 & l2 & Hl & Hn & Hr)].
    + rewrite Hr, set_registry_same, Hr, set_registry_same. reflexivity.
    + rewrite Hr. rewrite Hl in Hcount.
      rewrite count_occ_app in Hcount. cbn in Hcount.
      destruct (Nat.eq_dec f f) as [_ | Hff]; [| contradiction].
      assert (Hn2 : ~ In f l2).
      { intro H2. apply (count_occ_In Nat.eq_dec) in H2. lia. }
      rewrite remover_absent.
      * unfold Http.set_registry; destruct c, st''; reflexivity.
      * intro H12. apply in_app_or in H12. tauto.
Qed.

(* ========================================================================= *)
(* Further properties of the code around the HTTP core                        *)

(* ------------------------------------------------------------------------- *)
(* JS objects *)

Lemma lookup_set : forall (o : Js.Props) (k k' : string) (v : Js.JVal),
  Js.lookup (Js.set o k v) k' = if String.eqb k' k then Some v else Js.lookup o k'.
Proof.
  induction o as [| [k0 v0] o IH]; intros k k' v; cbn.
  - reflexivity.
  - destruct (String.eqb_spec k k0) as [-> | Hne]; cbn.
    + destruct (String.eqb k' k0); reflexivity.
    + rewrite IH. destruct (String.eqb_spec k' k) as [-> | Hne'].
      * destruct (String.eqb_spec k k0); [contradiction | reflexivity].
      * reflexivity.
Qed.

Lemma lookup_app : forall (o1 o2 : Js.Props) (k : string),
  Js.lookup (o1 ++ o2)%list k =
  match Js.lookup o1 k with Some v => Some v | None => Js.lookup o2 k end.
Proof.
  induction o1 as [| [k0 v0] o1 IH]; intros o2 k; cbn; [reflexivity |].
  destruct (String.eqb k k0); [reflexivity | apply IH].
Qed.

Lemma lookup_spread_rev : forall (s t : Js.Props) (k : string),
  Js.lookup (Js.spread t s) k =
  match Js.lookup (rev s) k with Some v => Some v | None => Js.lookup t k end.
Proof.
  induction s as [| [k0 v0] s IH]; intros t k; cbn; [reflexivity |].
  unfold Js.spread in IH. rewrite IH, lookup_app, lookup_set. cbn.
  destruct (Js.lookup (rev s) k); [reflexivity |].
  destruct (String.eqb k k0); reflexivity.
Qed.

Lemma lookup_absent : forall (o : Js.Props) (k : string),
  ~ In k (map fst o) -> Js.lookup o k = None.
Proof.
  induction o as [| [k0 v0] o IH]; intros k Hn; cbn; [reflexivity |].
  destruct (String.eqb_spec k k0) as [-> | Hne].
  - exfalso. apply Hn. left. reflexivity.
  - apply IH. intro H. apply Hn. right. exact H.
Qed.

Lemma lookup_rev : forall (o : Js.Props) (k : string),
  NoDup (map fst o) -> Js.lookup (rev o) k = Js.lookup o k.
Proof.
  induction o as [| [k0 v0] o IH]; intros k Hnd; cbn; [reflexivity |].
  inversion Hnd as [| ? ? Hn Hnd']; subst.
  rewrite lookup_app, IH by exact Hnd'. cbn.
  destruct (String.eqb_spec k k0) as [-> | Hne].
  - rewrite lookup_absent by exact Hn. reflexivity.
  - destruct (Js.lookup o k); reflexivity.
Qed.

Lemma nodup_single : forall (k : string) (v : Js.JVal), NoDup (map fst [(k, v)]).
Proof. intros k v. constructor; [intros [] | constructor]. Qed.

Lemma in_keys_set : forall (o : Js.Props) (k x : string) (v : Js.JVal),
  In x (map fst (Js.set o k v)) -> x = k \/ In x (map fst o).
Proof.
  induction o as [| [k0 v0] o IH]; intros k x v H; cbn in *.
  - destruct H as [H | []]; left; congruence.
  - destruct (String.eqb_spec k k0) as [-> | Hne]; cbn in H.
    + destruct H as [H | H]; [left; congruence | right; right; exact H].
    + destruct H as [H | H]; [right; left; exact H |].
      destruct (IH k x v H); [left | right; right]; assumption.
Qed.

Lemma nodup_set : forall (o : Js.Props) (k : string) (v : Js.JVal),
  NoDup (map fst o) -> NoDup (map fst (Js.set o k v)).
Proof.
  induction o as [| [k0 v0] o IH]; intros k v Hnd; cbn.
  - exact (nodup_single k v).
  - inversion Hnd as [| ? ? Hn Hnd']; subst.
    destruct (String.eqb_spec k k0) as [-> | Hne]; cbn; constructor; auto.
    intro Hin. destruct (in_keys_set o k k0 v Hin) as [-> | H]; [congruence | contradiction].
Qed.

Lemma nodup_spread : forall (s t : Js.Props),
  NoDup (map fst t) -> NoDup (map fst (Js.spread t s)).
Proof.
  induction s as [| [k v] s IH]; intros t Hnd; cbn; [exact Hnd |].
  apply IH. apply nodup_set. exact Hnd.
Qed.

(* { ...t, ...s } on a well-formed object s: s's properties win. *)
Lemma lookup_spread : forall (s t : Js.Props) (k : string),
  NoDup (map fst s) ->
  Js.lookup (Js.spread t s) k =
  match Js.lookup s k with Some v => Some v | None => Js.lookup t k end.
Proof. intros s t k Hnd. rewrite lookup_spread_rev, lookup_rev by exact Hnd. reflexivity. Qed.

(** X1: the headers client.js sends: Content-Type is the caller's if given,
    else 'application/json'; Authorization is 'Bearer <token>' when auth is on
    and a token is stored (overriding the caller's), and the caller's otherwise;
    every other header is the caller's. *)
Theorem client_requestHeaders :
  forall (authStorage : ClientReq.Stored) (auth : bool) (headers : Js.Props),
  NoDup (map fst headers) ->
  Js.lookup (ClientReq.requestHeaders authStorage auth headers) "Content-Type" =
    match Js.lookup headers "Content-Type" with
    | Some v => Some v
    | None => Some (Js.JStr "application/json")
    end /\
  Js.lookup (ClientReq.requestHeaders authStorage auth headers) "Authorization" =
    match (if auth then ClientReq.getAuthToken authStorage else None) with
    | Some token => Some (Js.JStr ("Bearer " ++ Js.toString token))
    | None => Js.lookup headers "Authorization"
    end /\
  (forall k, k <> "Content-Type" -> k <> "Authorization" ->
   Js.lookup (ClientReq.requestHeaders authStorage auth headers) k = Js.lookup headers k).
Proof.
  intros st auth h Hnd.
  assert (Hh : forall k, Js.lookup (Js.spread (Js.spread [] ClientReq.DEFAULT_HEADERS) h) k =
                 match Js.lookup h k with
                 | Some v => Some v
                 | None => if String.eqb k "Content-Type" then Some (Js.JStr "application/json")
                           else None
                 end).
  { intro k. rewrite lookup_spread by exact Hnd. reflexivity. }
  assert (Hall : forall k, Js.lookup (ClientReq.requestHeaders st auth h) k =
    match (if auth then ClientReq.getAuthToken st else None) with
    | Some token =>
        if String.eqb k "Authorization" then Some (Js.JStr ("Bearer " ++ Js.toString token))
        else Js.lookup (Js.spread (Js.spread [] ClientReq.DEFAULT_HEADERS) h) k
    | None => Js.lookup (Js.spread (Js.spread [] ClientReq.DEFAULT_HEADERS) h) k
    end).
  { intro k. unfold ClientReq.requestHeaders.
    destruct auth; cbn [negb].
    - unfold ClientReq.addAuthHeaders.
      destruct (ClientReq.getAuthToken st) as [t |].
      + rewrite lookup_spread by (apply nodup_spread, nodup_spread; constructor).
        rewrite lookup_spread by apply nodup_single.
        cbn. destruct (String.eqb k "Authorization"); [reflexivity |].
        rewrite !lookup_spread by exact Hnd. cbn. destruct (Js.lookup h k); reflexivity.
      + rewrite lookup_spread by exact Hnd. rewrite Hh.
        destruct (Js.lookup h k); reflexivity.
    - reflexivity. }
  repeat split.
  - rewrite Hall, Hh.
    destruct (if auth then ClientReq.getAuthToken st else None); reflexivity.
  - rewrite Hall, Hh.
    destruct (if auth then ClientReq.getAuthToken st else None); cbn; [reflexivity |].
    destruct (Js.lookup h "Authorization"); reflexivity.
  - intros k H1 H2. rewrite Hall, Hh.
    apply String.eqb_neq in H1, H2. rewrite H1.
    destruct (if auth then ClientReq.getAuthToken st else None); rewrite ?H2;
      destruct (Js.lookup h k); reflexivity.
Qed.

(** X1 (witness): caller headers with only a Content-Type, a stored token. *)
Lemma client_requestHeaders_witness :
  NoDup (map fst [("Content-Type", Js.JStr "multipart/form-data")]) /\
  Js.lookup (ClientReq.requestHeaders
     (ClientReq.SJson (Js.JObj [("state", Js.JObj [("user", Js.JObj [("token", Js.JStr "abc")])])]))
     true [("Content-Type", Js.JStr "multipart/form-data")]) "Authorization" =
  Some (Js.JStr "Bearer abc").
Proof.
  assert (Hnd : NoDup (map fst [("Content-Type", Js.JStr "multipart/form-data")]))
    by apply nodup_single.
  split; [exact Hnd |].
  exact (proj1 (proj2 (client_requestHeaders
     (ClientReq.SJson (Js.JObj [("state", Js.JObj [("user", Js.JObj [("token", Js.JStr "abc")])])]))
     true [("Content-Type", Js.JStr "multipart/form-data")] Hnd))).
Defined.

Lemma keys_distinct_NoDup : forall ks, keys_distinct ks = true -> NoDup ks.
Proof.
  induction ks as [| k ks IH]; intro H; cbn in H; [constructor |].
  apply andb_true_iff in H as [H1 H2]. constructor; [| exact (IH H2)].
  intro Hin. apply negb_true_iff in H1.
  assert (existsb (String.eqb k) ks = true) by (apply existsb_exists; exists k; split;
    [exact Hin | apply String.eqb_refl]).
  congruence.
Qed.

(* { ...o } of any object: its own properties, once each. *)
Lemma spread_nil_lookup : forall (o : Js.Props) (k : string),
  NoDup (map fst o) -> Js.lookup (Js.spread [] o) k = Js.lookup o k.
Proof.
  intros o k Hnd. rewrite lookup_spread by exact Hnd. destruct (Js.lookup o k); reflexivity.
Qed.

Lemma spread_nil_nodup : forall (o : Js.Props), NoDup (map fst (Js.spread [] o)).
Proof. intro o. apply nodup_spread. constructor. Qed.

(* ------------------------------------------------------------------------- *)
(* client.js: URLs and the api verbs *)

(** X3: the options given to an api verb of client.js override the verb's
    method and body: api.post sends options.body instead of data when present,
    options.method when present, and falls back to GET (not POST) when
    options.method is present but undefined. *)
Theorem client_verb_options : forall (data : Js.JVal) (options : Js.Props),
  NoDup (map fst options) ->
  ClientReq.method (ClientReq.post data options) =
    match Js.lookup options "method" with
    | None => Js.JStr "POST"
    | Some Js.JUndef => Js.JStr "GET"
    | Some m => m
    end /\
  ClientReq.body (ClientReq.post data options) =
    match Js.lookup options "body" with Some b => b | None => data end /\
  ClientReq.method (ClientReq.delete options) =
    match Js.lookup options "method" with
    | None => Js.JStr "DELETE"
    | Some Js.JUndef => Js.JStr "GET"
    | Some m => m
    end.
Proof.
  intros d o Hnd.
  unfold ClientReq.method, ClientReq.body, ClientReq.post, ClientReq.delete.
  rewrite !lookup_spread by exact Hnd. cbn.
  destruct (Js.lookup o "method") as [[] |]; destruct (Js.lookup o "body");
    repeat split; reflexivity.
Qed.

(** X3 (witness): api.post with { method: undefined } sends a GET. *)
Lemma client_verb_options_witness :
  NoDup (map fst [("method", Js.JUndef)]) /\
  ClientReq.method (ClientReq.post (Js.JObj []) [("method", Js.JUndef)]) = Js.JStr "GET".
Proof.
  assert (Hnd := nodup_single "method" Js.JUndef).
  split; [exact Hnd |]. exact (proj1 (client_verb_options (Js.JObj []) _ Hnd)).
Defined.

(* ------------------------------------------------------------------------- *)
(* http.js: the verbs and the configuration *)

(** X4: the verbs of the http.js client fix the method (and, for post, put
    and patch, the body JSON.stringify(data)) whatever the options say, and
    pass every other option through unchanged. *)
Theorem http_verb_options :
  forall (JSON_stringify : Js.JVal -> Js.JVal) (data : Js.JVal) (options : Js.Props),
  NoDup (map fst options) ->
  (forall (verb : Js.JVal -> Js.Props -> Js.Props) (method : string),
   In (verb, method) [(HttpReq.post JSON_stringify, "POST"); (HttpReq.put JSON_stringify, "PUT");
                      (HttpReq.patch JSON_stringify, "PATCH")] ->
   Js.lookup (verb data options) "method" = Some (Js.JStr method) /\
   Js.lookup (verb data options) "body" = Some (JSON_stringify data) /\
   (forall k, k <> "method" -> k <> "body" -> Js.lookup (verb data options) k = Js.lookup options k)) /\
  (forall (verb : Js.Props -> Js.Props) (method : string),
   In (verb, method) [(HttpReq.get, "GET"); (HttpReq.delete, "DELETE")] ->
   Js.lookup (verb options) "method" = Some (Js.JStr method) /\
   (forall k, k <> "method" -> Js.lookup (verb options) k = Js.lookup options k)).
Proof.
  intros J d o Hnd. split.
  - intros verb method Hin.
    destruct Hin as [Hv | [Hv | [Hv | []]]]; injection Hv as <- <-;
      unfold HttpReq.post, HttpReq.put, HttpReq.patch;
      (split; [rewrite !lookup_set; reflexivity |]);
      (split; [rewrite !lookup_set; reflexivity |]);
      intros k H1 H2; apply String.eqb_neq in H1, H2;
      rewrite !lookup_set, H1, H2; apply spread_nil_lookup, Hnd.
  - intros verb method Hin.
    destruct Hin as [Hv | [Hv | []]]; injection Hv as <- <-;
      unfold HttpReq.get, HttpReq.delete;
      (split; [rewrite lookup_set; reflexivity |]);
      intros k H1; apply String.eqb_neq in H1;
      rewrite lookup_set, H1; apply spread_nil_lookup, Hnd.
Qed.

(** X4 (witness): http.post with { method: 'PUT' } still sends a POST. *)
Lemma http_verb_options_witness :
  NoDup (map fst [("method", Js.JStr "PUT")]) /\
  Js.lookup (HttpReq.post (fun _ => Js.JStr "{}") (Js.JObj []) [("method", Js.JStr "PUT")]) "method" =
    Some (Js.JStr "POST").
Proof.
  assert (Hnd := nodup_single "method" (Js.JStr "PUT")).
  split; [exact Hnd |].
  exact (proj1 (proj1 (http_verb_options (fun _ => Js.JStr "{}") (Js.JObj []) _ Hnd)
                  _ "POST" (or_introl eq_refl))).
Defined.

Lemma mergeConfig_headers : forall (config options : Js.Props),
  NoDup (map fst (Js.ownProps (Js.get (Js.JObj config) "headers"))) ->
  NoDup (map fst (Js.ownProps (Js.get (Js.JObj options) "headers"))) ->
  exists hs, Js.lookup (HttpReq.mergeConfig config options) "headers" = Some (Js.JObj hs) /\
  forall h, Js.lookup hs h =
    match Js.lookup (Js.ownProps (Js.get (Js.JObj options) "headers")) h with
    | Some v => Some v
    | None => Js.lookup (Js.ownProps (Js.get (Js.JObj config) "headers")) h
    end.
Proof.
  intros c o Hc Ho. eexists. split.
  - unfold HttpReq.mergeConfig. rewrite lookup_set, String.eqb_refl. reflexivity.
  - intro h. unfold Js.spreadVal.
    rewrite lookup_spread by exact Ho. rewrite spread_nil_lookup by exact Hc. reflexivity.
Qed.

(** X5: request of the http.js client merges the per-request options over the
    client's configuration key by key, and the two header objects header by
    header: a header set for the request wins, every other header of the
    client is kept. *)
Theorem http_mergeConfig : forall (config options : Js.Props),
  NoDup (map fst config) -> NoDup (map fst options) ->
  NoDup (map fst (Js.ownProps (Js.get (Js.JObj config) "headers"))) ->
  NoDup (map fst (Js.ownProps (Js.get (Js.JObj options) "headers"))) ->
  (forall k, k <> "headers" ->
   Js.lookup (HttpReq.mergeConfig config options) k =
     match Js.lookup options k with Some v => Some v | None => Js.lookup config k end) /\
  exists hs, Js.lookup (HttpReq.mergeConfig config options) "headers" = Some (Js.JObj hs) /\
  forall h, Js.lookup hs h =
    match Js.lookup (Js.ownProps (Js.get (Js.JObj options) "headers")) h with
    | Some v => Some v
    | None => Js.lookup (Js.ownProps (Js.get (Js.JObj config) "headers")) h
    end.
Proof.
  intros c o Hc Ho Hhc Hho. split.
  - intros k Hk. apply String.eqb_neq in Hk. unfold HttpReq.mergeConfig.
    rewrite lookup_set, Hk, lookup_spread by exact Ho. rewrite spread_nil_lookup by exact Hc.
    reflexivity.
  - exact (mergeConfig_headers c o Hhc Hho).
Qed.

(** X5 (witness): a request header Accept over the client's defaults. *)
Lemma http_mergeConfig_witness :
  let c := HttpReq.DEFAULT_CONFIG "https://api.example.com" in
  let o := [("headers", Js.JObj [("Accept", Js.JStr "text/plain")])] in
  NoDup (map fst c) /\ NoDup (map fst o) /\
  NoDup (map fst (Js.ownProps (Js.get (Js.JObj c) "headers"))) /\
  NoDup (map fst (Js.ownProps (Js.get (Js.JObj o) "headers"))) /\
  exists hs, Js.lookup (HttpReq.mergeConfig c o) "headers" = Some (Js.JObj hs) /\
    Js.lookup hs "Accept" = Some (Js.JStr "text/plain") /\
    Js.lookup hs "Content-Type" = Some (Js.JStr "application/json").
Proof.
  cbv zeta.
  assert (H1 : NoDup (map fst (HttpReq.DEFAULT_CONFIG "https://api.example.com")))
    by (apply keys_distinct_NoDup; reflexivity).
  assert (H2 : NoDup (map fst [("headers", Js.JObj [("Accept", Js.JStr "text/plain")])]))
    by apply nodup_single.
  assert (H3 : NoDup (map fst (Js.ownProps (Js.get (Js.JObj (HttpReq.DEFAULT_CONFIG
            "https://api.example.com")) "headers")))) by (apply keys_distinct_NoDup; reflexivity).
  assert (H4 : NoDup (map fst (Js.ownProps (Js.get (Js.JObj
            [("headers", Js.JObj [("Accept", Js.JStr "text/plain")])]) "headers"))))
    by (apply keys_distinct_NoDup; reflexivity).
  split; [exact H1 | split; [exact H2 | split; [exact H3 | split; [exact H4 |]]]].
  destruct (proj2 (http_mergeConfig _ _ H1 H2 H3 H4)) as (hs & Hl & Hh).
  exists hs. split; [exact Hl |]. rewrite !Hh. split; reflexivity.
Defined.

(** X6: a client created with custom headers loses the default headers
    (Content-Type and Accept 'application/json'): createHttpClient's merge is
    shallow, so request headers are the per-request ones over the custom
    headers only; without custom headers they go over the defaults. *)
Theorem http_client_headers_shallow : forall (baseURL : string) (customConfig options : Js.Props),
  NoDup (map fst customConfig) ->
  NoDup (map fst (Js.ownProps (Js.get (Js.JObj customConfig) "headers"))) ->
  NoDup (map fst (Js.ownProps (Js.get (Js.JObj options) "headers"))) ->
  exists hs,
    Js.lookup (HttpReq.mergeConfig (HttpReq.clientConfig baseURL customConfig) options) "headers" =
      Some (Js.JObj hs) /\
    forall h, Js.lookup hs h =
      match Js.lookup (Js.ownProps (Js.get (Js.JObj options) "headers")) h with
      | Some v => Some v
      | None =>
          match Js.lookup customConfig "headers" with
          | Some hc => Js.lookup (Js.ownProps hc) h
          | None => Js.lookup [("Content-Type", Js.JStr "application/json");
                               ("Accept", Js.JStr "application/json")] h
          end
      end.
Proof.
  intros b c o Hc Hhc Hho.
  assert (Hget : Js.get (Js.JObj (HttpReq.clientConfig b c)) "headers" =
                 match Js.lookup c "headers" with
                 | Some hc => hc
                 | None => Js.JObj [("Content-Type", Js.JStr "application/json");
                                    ("Accept", Js.JStr "application/json")]
                 end).
  { unfold Js.get, HttpReq.clientConfig. rewrite lookup_spread by exact Hc.
    destruct (Js.lookup c "headers"); reflexivity. }
  assert (Hhc' : NoDup (map fst (Js.ownProps (Js.get (Js.JObj (HttpReq.clientConfig b c)) "headers")))).
  { rewrite Hget. unfold Js.get in Hhc. destruct (Js.lookup c "headers"); [exact Hhc |].
    apply keys_distinct_NoDup; reflexivity. }
  destruct (mergeConfig_headers _ o Hhc' Hho) as (hs & Hl & Hh).
  exists hs. split; [exact Hl |]. intro h. rewrite Hh, Hget.
  destruct (Js.lookup c "headers"); reflexivity.
Qed.

(** X6 (witness): custom headers { 'X-Api-Key': 'k' } drop Accept. *)
Lemma http_client_headers_shallow_witness :
  let c := [("headers", Js.JObj [("X-Api-Key", Js.JStr "k")])] in
  NoDup (map fst c) /\
  NoDup (map fst (Js.ownProps (Js.get (Js.JObj c) "headers"))) /\
  NoDup (map fst (Js.ownProps (Js.get (Js.JObj []) "headers"))) /\
  exists hs,
    Js.lookup (HttpReq.mergeConfig (HttpReq.clientConfig "https://api.example.com" c) []) "headers" =
      Some (Js.JObj hs) /\ Js.lookup hs "Accept" = None.
Proof.
  cbv zeta.
  assert (H1 : NoDup (map fst [("headers", Js.JObj [("X-Api-Key", Js.JStr "k")])]))
    by apply nodup_single.
  assert (H2 : NoDup (map fst (Js.ownProps (Js.get (Js.JObj
            [("headers", Js.JObj [("X-Api-Key", Js.JStr "k")])]) "headers"))))
    by (apply keys_distinct_NoDup; reflexivity).
  assert (H3 : NoDup (map fst (Js.ownProps (Js.get (Js.JObj []) "headers"))))
    by constructor.
  split; [exact H1 | split; [exact H2 | split; [exact H3 |]]].
  destruct (http_client_headers_shallow "https://api.example.com" _ [] H1 H2 H3) as (hs & Hl & Hh).
  exists hs. split; [exact Hl | rewrite Hh; reflexivity].
Defined.

(** X7: the default request interceptor of http.js, given a non-empty stored
    token, sets the Authorization header to 'Bearer <token>' and changes no
    other header and no other configuration key; with no token, or an empty
    one, it returns the configuration unchanged. *)
Theorem http_authRequestInterceptor : forall (t : string) (config : Js.Props),
  t <> "" -> NoDup (map fst config) ->
  NoDup (map fst (Js.ownProps (Js.get (Js.JObj config) "headers"))) ->
  (exists hs,
     Js.lookup (HttpReq.authRequestInterceptor (Some t) config) "headers" = Some (Js.JObj hs) /\
     Js.lookup hs "Authorization" = Some (Js.JStr ("Bearer " ++ t)) /\
     (forall h, h <> "Authorization" ->
      Js.lookup hs h = Js.lookup (Js.ownProps (Js.get (Js.JObj config) "headers")) h) /\
     (forall k, k <> "headers" ->
      Js.lookup (HttpReq.authRequestInterceptor (Some t) config) k = Js.lookup config k)) /\
  HttpReq.authRequestInterceptor None config = config /\
  HttpReq.authRequestInterceptor (Some "") config = config.
Proof.
  intros t c Ht Hc Hh.
  split; [| split; reflexivity].
  unfold HttpReq.authRequestInterceptor. cbn [Js.truthy].
  apply String.eqb_neq in Ht. rewrite Ht. cbn [negb].
  eexists. split; [rewrite lookup_set, String.eqb_refl; reflexivity |].
  split; [rewrite lookup_set, String.eqb_refl; reflexivity |]. split.
  - intros h Hne. apply String.eqb_neq in Hne. rewrite lookup_set, Hne.
    unfold Js.spreadVal. apply spread_nil_lookup, Hh.
  - intros k Hk. apply String.eqb_neq in Hk. rewrite lookup_set, Hk.
    apply spread_nil_lookup, Hc.
Qed.

(** X7 (witness). *)
Lemma http_authRequestInterceptor_witness :
  "abc" <> "" /\ NoDup (map fst [("method", Js.JStr "GET")]) /\
  NoDup (map fst (Js.ownProps (Js.get (Js.JObj [("method", Js.JStr "GET")]) "headers"))) /\
  Js.lookup (HttpReq.authRequestInterceptor (Some "abc") [("method", Js.JStr "GET")]) "method" =
    Some (Js.JStr "GET").
Proof.
  assert (H0 : "abc" <> "") by discriminate.
  assert (H1 := nodup_single "method" (Js.JStr "GET")).
  assert (H2 : NoDup (map fst (Js.ownProps (Js.get (Js.JObj [("method", Js.JStr "GET")]) "headers"))))
    by constructor.
  split; [exact H0 | split; [exact H1 | split; [exact H2 |]]].
  destruct (proj1 (http_authRequestInterceptor "abc" _ H0 H1 H2)) as (hs & _ & _ & _ & Hk).
  apply Hk. discriminate.
Defined.

(* ------------------------------------------------------------------------- *)
(* http.js: the retry loop *)

Lemma tryBlock_error_status : forall (rs : list Http.ResponseInterceptor) (r : Response),
  response_ok r = false ->
  exists m d,
    (Http.nonRetryableStatus (r_status r) = true ->
     Http.tryBlock rs (FResponse r) = Http.TThrow (Http.HApi m (r_status r) d None)) /\
    (Http.nonRetryableStatus (r_status r) = false ->
     Http.tryBlock rs (FResponse r) = Http.TNext (Http.HApi m (r_status r) d None)).
Proof.
  intros rs r Hok. unfold Http.tryBlock. rewrite Hok. cbv iota zeta beta.
  do 2 eexists. split; intro H; rewrite H; reflexivity.
Qed.

(* When no attempt returns, the loop runs every attempt from [s] to [retries]
   and exits with the error of the last one. *)
Lemma whileLoop_exhaust :
  forall (rs : list Http.ResponseInterceptor) (fetch : Z -> FetchResult) (retries : Z)
         (E : Z -> Http.Thrown) (fuel s : nat) (lastError : Http.Thrown),
  (1 <= fuel)%nat -> retries + 2 <= Z.of_nat s + Z.of_nat fuel ->
  (forall a, Z.of_nat s <= a <= retries ->
     (exists e, Http.tryBlock rs (fetch a) = Http.TThrow e /\ Http.nullish e = false /\
                Http.catchError e = E a) \/
     Http.tryBlock rs (fetch a) = Http.TNext (E a)) ->
  Http.whileLoop rs fetch retries fuel (Z.of_nat s) lastError =
    (Http.LExit (if Z.of_nat s <=? retries then E retries else lastError),
     map Z.of_nat (seq s (Z.to_nat (retries + 1 - Z.of_nat s)))).
Proof.
  intros rs fetch retries E. induction fuel as [| fuel IH]; intros s lastError H1 H2 Hall; [lia |].
  cbn [Http.whileLoop].
  destruct (Z.leb_spec (Z.of_nat s) retries) as [Hle | Hgt].
  - assert (Hnext : s <> Z.to_nat retries ->
      Http.whileLoop rs fetch retries fuel (Z.of_nat s + 1) (E (Z.of_nat s)) =
      (Http.LExit (E retries), map Z.of_nat (seq (S s) (Z.to_nat (retries + 1 - Z.of_nat (S s)))))).
    { intro Hne. replace (Z.of_nat s + 1) with (Z.of_nat (S s)) by lia.
      rewrite IH by (try lia; intros a Ha; apply Hall; lia).
      replace (Z.of_nat (S s) <=? retries) with true by (symmetry; apply Z.leb_le; lia).
      reflexivity. }
    assert (Hlen : Z.to_nat (retries + 1 - Z.of_nat s) =
                   S (Z.to_nat (retries + 1 - Z.of_nat (S s)))) by lia.
    rewrite Hlen. cbn [seq map].
    destruct (Hall (Z.of_nat s) ltac:(lia)) as [(e & Ht & Hnl & Hc) | Ht]; rewrite Ht.
    + rewrite Hnl, Hc. destruct (Z.eqb_spec (Z.of_nat s) retries) as [Heq | Hne].
      * subst retries. replace (Z.to_nat (Z.of_nat s + 1 - Z.of_nat (S s))) with 0%nat by lia.
        reflexivity.
      * rewrite Hnext by lia. reflexivity.
    + destruct (Nat.eq_dec s (Z.to_nat retries)) as [Heq | Hne].
      * assert (Hr : retries = Z.of_nat s) by lia. subst retries.
        replace (Z.to_nat (Z.of_nat s + 1 - Z.of_nat (S s))) with 0%nat by lia.
        cbn [seq map]. rewrite Nat2Z.inj_succ in H2.
        destruct fuel as [| fuel']; [lia |]. cbn [Http.whileLoop].
        replace (Z.of_nat s + 1 <=? Z.of_nat s) with false by (symmetry; apply Z.leb_gt; lia).
        reflexivity.
      * rewrite Hnext by exact Hne. reflexivity.
  - replace (Z.of_nat s <=? retries) with false by (symmetry; apply Z.leb_gt; lia).
    replace (Z.to_nat (retries + 1 - Z.of_nat s)) with 0%nat by lia. reflexivity.
Qed.

Lemma request_exhaust :
  forall rq rs es config fetch (requestConfig : Http.Config) (E : Z -> Http.Thrown),
  Http.applyRequestInterceptors rq config = Http.Ret requestConfig ->
  0 <= Http.cfg_retries requestConfig ->
  (forall a, 0 <= a <= Http.cfg_retries requestConfig ->
     (exists e, Http.tryBlock rs (fetch a) = Http.TThrow e /\ Http.nullish e = false /\
                Http.catchError e = E a) \/
     Http.tryBlock rs (fetch a) = Http.TNext (E a)) ->
  Http.request rq rs es config fetch =
    (match fst (Http.applyErrorInterceptors es (E (Http.cfg_retries requestConfig))) with
     | Http.CThrow e => Http.Rejected e
     | Http.COk None | Http.COk (Some (Http.HValue NNull)) => Http.ResolvedNull
     | Http.COk (Some p) => Http.Rejected p
     end,
     map Z.of_nat (seq 0 (S (Z.to_nat (Http.cfg_retries requestConfig))))).
Proof.
  intros rq rs es config fetch c E Hrq H0 Hall. unfold Http.request. rewrite Hrq.
  cbv zeta. change (Http.whileLoop ?a ?b ?c ?d 0 ?e) with (Http.whileLoop a b c d (Z.of_nat 0) e).
  rewrite whileLoop_exhaust with (E := E) by (try lia; exact Hall).
  replace (Z.of_nat 0 <=? Http.cfg_retries c) with true by (symmetry; apply Z.leb_le; lia).
  replace (Z.to_nat (Http.cfg_retries c + 1 - Z.of_nat 0)) with (S (Z.to_nat (Http.cfg_retries c)))
    by lia.
  destruct (fst (Http.applyErrorInterceptors es (E (Http.cfg_retries c)))) as [[p |] | e];
    [destruct p as [| | | []] | |]; reflexivity.
Qed.

(** X8: when every response is a 401, request of the http.js client fetches
    retries+1 times (the 401 is not final); with the module's error
    interceptor it then resolves with null (after redirecting to /login)
    unless the page's path contains '/login', where it rejects with the 401
    ApiError. *)
Theorem http_401_auth_interceptor :
  forall (b : HttpReq.Browser) (n : nat) (rs : list Http.ResponseInterceptor)
         (config : Http.Config) (fetch : Z -> FetchResult),
  0 <= Http.cfg_retries config ->
  (forall a, exists r, fetch a = FResponse r /\ r_status r = 401) ->
  let es := [Http.mkErrorInterceptor n (fun e => snd (HttpReq.authErrorInterceptor b e))] in
  snd (Http.request [] rs es config fetch) =
    map Z.of_nat (seq 0 (S (Z.to_nat (Http.cfg_retries config)))) /\
  (includes (HttpReq.pathname b) "/login" = false ->
   fst (Http.request [] rs es config fetch) = Http.ResolvedNull) /\
  (includes (HttpReq.pathname b) "/login" = true ->
   exists m d, fst (Http.request [] rs es config fetch) = Http.Rejected (Http.HApi m 401 d None)).
Proof.
  intros b n rs c fetch H0 Hf es.
  assert (HE : forall a, exists m d, Http.tryBlock rs (fetch a) = Http.TThrow (Http.HApi m 401 d None)).
  { intro a. destruct (Hf a) as (r & Hr & Hs). rewrite Hr.
    assert (Hok : response_ok r = false) by (unfold response_ok; rewrite Hs; reflexivity).
    destruct (tryBlock_error_status rs r Hok) as (m & d & Ht & _).
    exists m, d. rewrite <- Hs. apply Ht. rewrite Hs. reflexivity. }
  set (E := fun a => match Http.tryBlock rs (fetch a) with
                     | Http.TThrow e | Http.TNext e => e
                     | Http.TReturn _ => Http.HUndefined
                     end).
  assert (Hreq : Http.request [] rs es c fetch =
    (match fst (Http.applyErrorInterceptors es (E (Http.cfg_retries c))) with
     | Http.CThrow e => Http.Rejected e
     | Http.COk None | Http.COk (Some (Http.HValue NNull)) => Http.ResolvedNull
     | Http.COk (Some p) => Http.Rejected p
     end, map Z.of_nat (seq 0 (S (Z.to_nat (Http.cfg_retries c)))))).
  { apply request_exhaust; [reflexivity | exact H0 |].
    intros a _. left. destruct (HE a) as (m & d & Ht).
    exists (Http.HApi m 401 d None). split; [exact Ht |]. split; [reflexivity |].
    unfold E. rewrite Ht. reflexivity. }
  destruct (HE (Http.cfg_retries c)) as (m & d & Ht).
  assert (HEr : E (Http.cfg_retries c) = Http.HApi m 401 d None) by (unfold E; rewrite Ht; reflexivity).
  rewrite Hreq, HEr. split; [reflexivity |]. split; intro Hl.
  - cbn. rewrite Hl. reflexivity.
  - exists m, d. cbn. rewrite Hl. reflexivity.
Qed.

(** X8 (witness): from /dashboard, two retries. *)
Lemma http_401_auth_interceptor_witness :
  0 <= Http.cfg_retries (config_with 2) /\
  (forall a : Z, exists r, (fun _ : Z => FResponse r401) a = FResponse r /\ r_status r = 401) /\
  fst (Http.request [] [] [Http.mkErrorInterceptor 0
         (fun e => snd (HttpReq.authErrorInterceptor on_dashboard e))] (config_with 2)
         (fun _ => FResponse r401)) = Http.ResolvedNull.
Proof.
  assert (H0 : 0 <= Http.cfg_retries (config_with 2)) by (cbn; lia).
  assert (H1 : forall a : Z, exists r, (fun _ : Z => FResponse r401) a = FResponse r /\ r_status r = 401)
    by (intro a; exists r401; split; reflexivity).
  split; [exact H0 | split; [exact H1 |]].
  exact (proj1 (proj2 (http_401_auth_interceptor on_dashboard 0 [] (config_with 2) _ H0 H1))
           eq_refl).
Defined.

Lemma whileLoop_bounded :
  forall (rs : list Http.ResponseInterceptor) (fetch : Z -> FetchResult) (retries : Z)
         (fuel s : nat) (lastError : Http.Thrown),
  (1 <= fuel)%nat -> retries + 2 <= Z.of_nat s + Z.of_nat fuel ->
  exists n out, Http.whileLoop rs fetch retries fuel (Z.of_nat s) lastError =
                  (out, map Z.of_nat (seq s n)) /\
    out <> Http.LOutOfFuel /\ Z.of_nat s + Z.of_nat n <= Z.max (Z.of_nat s) (retries + 1).
Proof.
  intros rs fetch retries. induction fuel as [| fuel IH]; intros s lastError H1 H2; [lia |].
  cbn [Http.whileLoop].
  destruct (Z.leb_spec (Z.of_nat s) retries) as [Hle | Hgt].
  - assert (Hrec : forall e, exists n out,
        Http.whileLoop rs fetch retries fuel (Z.of_nat s + 1) e = (out, map Z.of_nat (seq (S s) n)) /\
        out <> Http.LOutOfFuel /\ Z.of_nat (S s) + Z.of_nat n <= Z.max (Z.of_nat (S s)) (retries + 1)).
    { intro e. replace (Z.of_nat s + 1) with (Z.of_nat (S s)) by lia. apply IH; lia. }
    destruct (Http.tryBlock rs (fetch (Z.of_nat s))) as [env | e | e].
    + exists 1%nat, (Http.LReturn env). split; [reflexivity | split; [discriminate | lia]].
    + destruct (Http.nullish e).
      { exists 1%nat, (Http.LThrow (Http.readTypeError e "name")).
        split; [reflexivity | split; [discriminate | lia]]. }
      destruct (Z.eqb (Z.of_nat s) retries).
      * exists 1%nat, (Http.LExit (Http.catchError e)).
        split; [reflexivity | split; [discriminate | lia]].
      * destruct (Hrec (Http.catchError e)) as (n & out & Hw & Hout & Hb). rewrite Hw.
        exists (S n), out. split; [reflexivity | split; [exact Hout | lia]].
    + destruct (Hrec e) as (n & out & Hw & Hout & Hb). rewrite Hw.
      exists (S n), out. split; [reflexivity | split; [exact Hout | lia]].
  - exists 0%nat, (Http.LExit lastError). split; [reflexivity | split; [discriminate | lia]].
Qed.

(** X9: request of the http.js client fetches at consecutive attempts
    0, 1, ..., n-1, with n at most retries+1 for the retries of the
    configuration after the request interceptors; when a request interceptor
    throws, request rejects with that exception and makes no fetch. *)
Theorem http_request_attempts :
  forall (rq : list Http.RequestInterceptor) (rs : list Http.ResponseInterceptor)
         (es : list Http.ErrorInterceptor) (config : Http.Config) (fetch : Z -> FetchResult),
  (exists n, snd (Http.request rq rs es config fetch) = map Z.of_nat (seq 0 n) /\
    forall requestConfig, Http.applyRequestInterceptors rq config = Http.Ret requestConfig ->
    Z.of_nat n <= Z.max 0 (Http.cfg_retries requestConfig + 1)) /\
  (forall e, Http.applyRequestInterceptors rq config = Http.Throw e ->
   Http.request rq rs es config fetch = (Http.Rejected e, [])).
Proof.
  intros rq rs es config fetch. unfold Http.request.
  destruct (Http.applyRequestInterceptors rq config) as [c | e].
  - split; [| intros e H; discriminate].
    cbv zeta.
    change (Http.whileLoop ?a ?b ?d ?f 0 ?g) with (Http.whileLoop a b d f (Z.of_nat 0) g).
    destruct (whileLoop_bounded rs fetch (Http.cfg_retries c) (S (S (Z.to_nat (Http.cfg_retries c))))
                0 Http.HUndefined ltac:(lia) ltac:(lia)) as (n & out & Hw & Hout & Hb).
    rewrite Hw.
    assert (Hn : forall c', Http.Ret c = Http.Ret c' -> Z.of_nat n <= Z.max 0 (Http.cfg_retries c' + 1)).
    { intros c' H. injection H as <-. lia. }
    exists n. split; [| exact Hn].
    destruct out as [env | le | t |]; [reflexivity | | reflexivity | contradiction].
    destruct (fst (Http.applyErrorInterceptors es le)) as [[p |] | e];
      [destruct p as [| | | []] | |]; reflexivity.
  - split.
    + exists 0%nat. split; [reflexivity |]. intros c' H; discriminate.
    + intros e' H. injection H as <-. reflexivity.
Qed.

(** X9 (witness): a request interceptor that throws. *)
Lemma http_request_attempts_witness :
  Http.applyRequestInterceptors [Http.mkRequestInterceptor 1 (fun _ => Http.Throw interceptor_bug)]
    (config_with 1) = Http.Throw interceptor_bug /\
  Http.request [Http.mkRequestInterceptor 1 (fun _ => Http.Throw interceptor_bug)] [] []
    (config_with 1) (fun _ => FResponse r500) = (Http.Rejected interceptor_bug, []).
Proof.
  split; [reflexivity |].
  exact (proj2 (http_request_attempts [Http.mkRequestInterceptor 1 (fun _ => Http.Throw interceptor_bug)]
           [] [] (config_with 1) (fun _ => FResponse r500)) interceptor_bug eq_refl).
Defined.

(** X10: with a negative retries, request of the http.js client makes no
    fetch at all and, without error interceptors, rejects with undefined. *)
Theorem http_negative_retries :
  forall (rq : list Http.RequestInterceptor) (rs : list Http.ResponseInterceptor)
         (config : Http.Config) (fetch : Z -> FetchResult) (requestConfig : Http.Config),
  Http.applyRequestInterceptors rq config = Http.Ret requestConfig ->
  Http.cfg_retries requestConfig < 0 ->
  Http.request rq rs [] config fetch = (Http.Rejected Http.HUndefined, []).
Proof.
  intros rq rs config fetch c Hrq Hneg. unfold Http.request. rewrite Hrq. cbv zeta.
  replace (Z.to_nat (Http.cfg_retries c)) with 0%nat by lia. cbn [Http.whileLoop].
  replace (0 <=? Http.cfg_retries c) with false by (symmetry; apply Z.leb_gt; lia).
  reflexivity.
Qed.

(** X10 (witness): retries = -1. *)
Lemma http_negative_retries_witness :
  Http.applyRequestInterceptors [] (config_with (-1)) = Http.Ret (config_with (-1)) /\
  Http.cfg_retries (config_with (-1)) < 0 /\
  Http.request [] [] [] (config_with (-1)) (fun _ => FResponse r500) = (Http.Rejected Http.HUndefined, []).
Proof.
  assert (H1 : Http.applyRequestInterceptors [] (config_with (-1)) = Http.Ret (config_with (-1)))
    by reflexivity.
  assert (H2 : Http.cfg_retries (config_with (-1)) < 0) by (cbn; lia).
  split; [exact H1 | split; [exact H2 |]].
  exact (http_negative_retries [] [] (config_with (-1)) (fun _ => FResponse r500) _ H1 H2).
Defined.

(** X11: when every response of request of the http.js client is an error
    status other than 400, 401, 403, 404 and 422 (a 5xx, 408, 429, ...), it
    fetches retries+1 times and, without error interceptors, rejects with the
    ApiError of the last response: its message (the body's message, else
    ERROR_MESSAGES[status], else 'Request failed with status N'), its status
    and its parsed body (null when the body does not parse). *)
Theorem http_retryable_status_exhausts :
  forall (rs : list Http.ResponseInterceptor) (config : Http.Config) (fetch : Z -> FetchResult),
  0 <= Http.cfg_retries config ->
  (forall a, exists r, fetch a = FResponse r /\ response_ok r = false /\
                       Http.nonRetryableStatus (r_status r) = false) ->
  exists r, fetch (Http.cfg_retries config) = FResponse r /\
    Http.request [] rs [] config fetch =
      (Http.Rejected (Http.HApi (Http.errorMessageOf (r_status r) (Http.errorDataOf r))
                                (r_status r) (Http.errorDataOf r) None),
       map Z.of_nat (seq 0 (S (Z.to_nat (Http.cfg_retries config))))).
Proof.
  intros rs c fetch H0 Hf.
  assert (Ht : forall r, response_ok r = false -> Http.nonRetryableStatus (r_status r) = false ->
    Http.tryBlock rs (FResponse r) =
      Http.TNext (Http.HApi (Http.errorMessageOf (r_status r) (Http.errorDataOf r))
                            (r_status r) (Http.errorDataOf r) None)).
  { intros r Hok Hn. unfold Http.tryBlock. rewrite Hok, Hn. reflexivity. }
  set (E := fun a => match fetch a with
                     | FResponse r => Http.HApi (Http.errorMessageOf (r_status r) (Http.errorDataOf r))
                                                (r_status r) (Http.errorDataOf r) None
                     | _ => Http.HUndefined
                     end).
  assert (Hreq : Http.request [] rs [] c fetch =
    (match fst (Http.applyErrorInterceptors [] (E (Http.cfg_retries c))) with
     | Http.CThrow e => Http.Rejected e
     | Http.COk None | Http.COk (Some (Http.HValue NNull)) => Http.ResolvedNull
     | Http.COk (Some p) => Http.Rejected p
     end, map Z.of_nat (seq 0 (S (Z.to_nat (Http.cfg_retries c)))))).
  { apply request_exhaust; [reflexivity | exact H0 |].
    intros a _. right. destruct (Hf a) as (r & Hr & Hok & Hn).
    unfold E. rewrite Hr. exact (Ht r Hok Hn). }
  destruct (Hf (Http.cfg_retries c)) as (r & Hr & Hok & Hn).
  exists r. split; [exact Hr |].
  rewrite Hreq. unfold E. rewrite Hr. reflexivity.
Qed.

(** X11 (witness): a server that always answers 500, two retries. *)
Lemma http_retryable_status_exhausts_witness :
  0 <= Http.cfg_retries (config_with 2) /\
  (forall a : Z, exists r, (fun _ : Z => FResponse r500) a = FResponse r /\ response_ok r = false /\
                           Http.nonRetryableStatus (r_status r) = false) /\
  snd (Http.request [] [] [] (config_with 2) (fun _ => FResponse r500)) = [0; 1; 2].
Proof.
  assert (H0 : 0 <= Http.cfg_retries (config_with 2)) by (cbn; lia).
  assert (H1 : forall a : Z, exists r, (fun _ : Z => FResponse r500) a = FResponse r /\
                 response_ok r = false /\ Http.nonRetryableStatus (r_status r) = false)
    by (intro a; exists r500; repeat split).
  split; [exact H0 | split; [exact H1 |]].
  destruct (http_retryable_status_exhausts [] (config_with 2) _ H0 H1) as (r & _ & H).
  rewrite H. reflexivity.
Defined.

(** X12: when every fetch of request of the http.js client rejects with the
    same exception, it fetches retries+1 times and, without error
    interceptors, rejects with the catch block's translation of it: an
    AbortError becomes the ApiError 408 'Request timed out', a TypeError
    'Failed to fetch' the ApiError 0 'Network error - please check your
    connection', any other exception is kept. *)
Theorem http_fetch_rejection_exhausts :
  forall (rs : list Http.ResponseInterceptor) (config : Http.Config) (fetch : Z -> FetchResult)
         (name msg : string),
  0 <= Http.cfg_retries config ->
  (forall a, fetch a = FReject name msg) ->
  Http.request [] rs [] config fetch =
    (Http.Rejected (Http.catchError (Http.HOther name msg)),
     map Z.of_nat (seq 0 (S (Z.to_nat (Http.cfg_retries config))))).
Proof.
  intros rs c fetch name msg H0 Hf.
  rewrite request_exhaust with (requestConfig := c) (E := fun _ => Http.catchError (Http.HOther name msg));
    [| reflexivity | exact H0 |].
  - cbn [Http.catchError]. destruct (String.eqb name "AbortError"); [reflexivity |].
    destruct (String.eqb name "TypeError" && String.eqb msg "Failed to fetch"); reflexivity.
  - intros a _. left. exists (Http.HOther name msg). rewrite Hf. repeat split.
Qed.

(** X12 (witness): the network is down, one retry. *)
Lemma http_fetch_rejection_exhausts_witness :
  0 <= Http.cfg_retries (config_with 1) /\
  (forall a : Z, (fun _ : Z => FReject "TypeError" "Failed to fetch") a = FReject "TypeError" "Failed to fetch") /\
  Http.request [] [] [] (config_with 1) (fun _ => FReject "TypeError" "Failed to fetch") =
    (Http.Rejected (Http.HApi "Network error - please check your connection" 0 DNull
                      (Some ("TypeError", "Failed to fetch"))), [0; 1]).
Proof.
  assert (H0 : 0 <= Http.cfg_retries (config_with 1)) by (cbn; lia).
  assert (H1 : forall a : Z, (fun _ : Z => FReject "TypeError" "Failed to fetch") a =
                             FReject "TypeError" "Failed to fetch") by reflexivity.
  split; [exact H0 | split; [exact H1 |]].
  exact (http_fetch_rejection_exhausts [] (config_with 1) _ _ _ H0 H1).
Defined.

(* ------------------------------------------------------------------------- *)
(* client.js: the retries of apiRequest *)

Lemma executeRequest_bounded :
  forall (fetch : Z -> FetchResult) (retries : Z) (fuel s : nat),
  (1 <= fuel)%nat -> retries + 1 <= Z.of_nat s + Z.of_nat fuel ->
  exists n out, Client.executeRequest fetch retries fuel (Z.of_nat s) =
                  (out, map Z.of_nat (seq s (S n))) /\
    out <> Client.OutOfFuel /\ Z.of_nat n <= Z.max 0 (retries - Z.of_nat s).
Proof.
  intros fetch retries. induction fuel as [| fuel IH]; intros s H1 H2; [lia |].
  cbn [Client.executeRequest].
  assert (Hrec : forall e, Client.shouldRetry e (Z.of_nat s) retries = true ->
    exists n out, Client.executeRequest fetch retries fuel (Z.of_nat s + 1) =
                    (out, map Z.of_nat (seq (S s) (S n))) /\
      out <> Client.OutOfFuel /\ Z.of_nat n <= Z.max 0 (retries - Z.of_nat (S s))).
  { intros e He. apply shouldRetry_below_cap in He.
    replace (Z.of_nat s + 1) with (Z.of_nat (S s)) by lia. apply IH; lia. }
  destruct (Client.tryBlock (fetch (Z.of_nat s))) as [sc | [e | name msg | [| p]]].
  - exists 0%nat, (Client.Done sc). split; [reflexivity | split; [discriminate | lia]].
  - destruct (Client.shouldRetry e (Z.of_nat s) retries) eqn:Hs.
    + destruct (Hrec e Hs) as (n & out & Hw & Hout & Hb). rewrite Hw.
      apply shouldRetry_below_cap in Hs.
      exists (S n), out. split; [reflexivity | split; [exact Hout | lia]].
    + exists 0%nat, (Client.Threw (Client.ThApi e)).
      split; [reflexivity | split; [discriminate | lia]].
  - destruct (String.eqb name "AbortError").
    + eexists 0%nat, _. split; [reflexivity | split; [discriminate | lia]].
    + match goal with
      | |- context [if Client.shouldRetry ?a (Z.of_nat s) retries then _ else _] =>
          destruct (Client.shouldRetry a (Z.of_nat s) retries) eqn:Hs
      end.
      * destruct (Hrec _ Hs) as (n & out & Hw & Hout & Hb). rewrite Hw.
        apply shouldRetry_below_cap in Hs.
        exists (S n), out. split; [reflexivity | split; [exact Hout | lia]].
      * eexists 0%nat, _. split; [reflexivity | split; [discriminate | lia]].
  - eexists 0%nat, _. split; [reflexivity | split; [discriminate | lia]].
  - match goal with
    | |- context [if Client.shouldRetry ?a (Z.of_nat s) retries then _ else _] =>
        destruct (Client.shouldRetry a (Z.of_nat s) retries) eqn:Hs
    end.
    + destruct (Hrec _ Hs) as (n & out & Hw & Hout & Hb). rewrite Hw.
      apply shouldRetry_below_cap in Hs.
      exists (S n), out. split; [reflexivity | split; [exact Hout | lia]].
    + eexists 0%nat, _. split; [reflexivity | split; [discriminate | lia]].
Qed.

(** X13: apiRequest of client.js fetches at consecutive retry counts
    0, 1, ..., n: at least once and at most max(retries, 0) + 1 times. *)
Theorem client_apiRequest_attempts : forall (fetch : Z -> FetchResult) (retries : Z),
  exists n, snd (Client.apiRequest fetch retries) = map Z.of_nat (seq 0 (S n)) /\
    Z.of_nat n <= Z.max 0 retries.
Proof.
  intros fetch retries. unfold Client.apiRequest.
  change (Client.executeRequest fetch retries (S (Z.to_nat retries)) 0)
    with (Client.executeRequest fetch retries (S (Z.to_nat retries)) (Z.of_nat 0)).
  destruct (executeRequest_bounded fetch retries (S (Z.to_nat retries)) 0 ltac:(lia) ltac:(lia))
    as (n & out & Hw & Hout & Hb).
  rewrite Hw. exists n. split; [reflexivity | lia].
Qed.

(** X14: when every fetch of apiRequest of client.js rejects with an
    exception other than an AbortError (the network is down), the request is
    retried until retries is reached, fetching max(retries, 0) + 1 times, and
    then throws a NETWORK ApiError with status 0 carrying the exception. *)
Theorem client_network_failure_retried :
  forall (fetch : Z -> FetchResult) (retries : Z) (name msg : string),
  name <> "AbortError" -> (forall a, fetch a = FReject name msg) ->
  Client.apiRequest fetch retries =
    (Client.Threw (Client.ThApi (Client.mkApiError (if truthy msg then msg else "Network error")
                                   Client.NETWORK 0 (DOriginal name msg))),
     map Z.of_nat (seq 0 (S (Z.to_nat retries)))).
Proof.
  intros fetch retries name msg Hn Hf. unfold Client.apiRequest.
  change (Client.executeRequest fetch retries (S (Z.to_nat retries)) 0)
    with (Client.executeRequest fetch retries (S (Z.to_nat retries)) (Z.of_nat 0)).
  rewrite executeRequest_persistent with
    (F := fun _ => Client.mkApiError (if truthy msg then msg else "Network error")
                                     Client.NETWORK 0 (DOriginal name msg)); [| | | lia | lia].
  - rewrite Z.sub_0_r. reflexivity.
  - intro a. right; left. exists name, msg. rewrite Hf.
    split; [reflexivity | split; [apply String.eqb_neq, Hn | reflexivity]].
  - intros a rc mx. unfold Client.shouldRetry. destruct (rc >=? mx); reflexivity.
Qed.

(** X14 (witness): 'Failed to fetch' on every attempt, two retries. *)
Lemma client_network_failure_retried_witness :
  "TypeError" <> "AbortError" /\
  (forall a : Z, (fun _ : Z => FReject "TypeError" "Failed to fetch") a = FReject "TypeError" "Failed to fetch") /\
  snd (Client.apiRequest (fun _ => FReject "TypeError" "Failed to fetch") 2) = [0; 1; 2].
Proof.
  assert (H0 : "TypeError" <> "AbortError") by discriminate.
  assert (H1 : forall a : Z, (fun _ : Z => FReject "TypeError" "Failed to fetch") a =
                             FReject "TypeError" "Failed to fetch") by reflexivity.
  split; [exact H0 | split; [exact H1 |]].
  rewrite (client_network_failure_retried _ 2 _ _ H0 H1). reflexivity.
Defined.

Lemma client_tryBlock_error : forall (r : Response) (d : Data),
  Client.parseBody r = inl d -> response_ok r = false ->
  Client.tryBlock (FResponse r) =
    inr (Client.ThApi (Client.mkApiError (Client.errorMessageOf d r)
                         (Client.mapStatusToErrorType (r_status r)) (r_status r) d)).
Proof.
  intros r d Hp Hok. unfold Client.tryBlock. rewrite Hp, Hok. reflexivity.
Qed.

(** X15: when every response of apiRequest of client.js is a 5xx with a
    readable body, the request is retried until retries is reached, fetching
    max(retries, 0) + 1 times, and throws the SERVER ApiError of the last
    response: its message (the body's message, else the status text, else
    'API request failed'), its status and its body. *)
Theorem client_server_error_retried : forall (fetch : Z -> FetchResult) (retries : Z),
  (forall a, exists r d, fetch a = FResponse r /\ Client.parseBody r = inl d /\ 500 <= r_status r) ->
  exists r d, fetch (Z.max 0 retries) = FResponse r /\ Client.parseBody r = inl d /\
    Client.apiRequest fetch retries =
      (Client.Threw (Client.ThApi
         (Client.mkApiError (Client.errorMessageOf d r) Client.SERVER (r_status r) d)),
       map Z.of_nat (seq 0 (S (Z.to_nat retries)))).
Proof.
  intros fetch retries Hf.
  assert (Ht : forall r d, Client.parseBody r = inl d -> 500 <= r_status r ->
    Client.tryBlock (FResponse r) =
      inr (Client.ThApi (Client.mkApiError (Client.errorMessageOf d r) Client.SERVER (r_status r) d))).
  { intros r d Hp Hs.
    assert (Hok : response_ok r = false) by (unfold response_ok; destruct (Z.leb_spec (r_status r) 299);
                                              [lia | rewrite andb_false_r; reflexivity]).
    rewrite (client_tryBlock_error r d Hp Hok). unfold Client.mapStatusToErrorType.
    replace (r_status r >=? 500) with true by (symmetry; apply Z.geb_le; lia). reflexivity. }
  set (F := fun a => match Client.tryBlock (fetch a) with
                     | inr (Client.ThApi e) => e
                     | _ => Client.mkApiError "" Client.UNKNOWN 0 DNull
                     end).
  assert (HF : forall a, exists r d, fetch a = FResponse r /\ Client.parseBody r = inl d /\
    500 <= r_status r /\ Client.tryBlock (fetch a) = inr (Client.ThApi (F a)) /\
    F a = Client.mkApiError (Client.errorMessageOf d r) Client.SERVER (r_status r) d).
  { intro a. destruct (Hf a) as (r & d & Hr & Hp & Hs).
    exists r, d. unfold F. rewrite Hr, (Ht r d Hp Hs). auto. }
  destruct (HF (Z.max 0 retries)) as (r & d & Hr & Hp & _ & _ & HFa).
  exists r, d. split; [exact Hr | split; [exact Hp |]].
  unfold Client.apiRequest.
  change (Client.executeRequest fetch retries (S (Z.to_nat retries)) 0)
    with (Client.executeRequest fetch retries (S (Z.to_nat retries)) (Z.of_nat 0)).
  rewrite executeRequest_persistent with (F := F); [| | | lia | lia].
  - rewrite Z.sub_0_r. change (Z.of_nat 0) with 0. rewrite HFa. reflexivity.
  - intro a. left. destruct (HF a) as (r' & d' & _ & _ & _ & Ht' & _). exact Ht'.
  - intros a rc mx. destruct (HF a) as (r' & d' & _ & _ & Hs & _ & HFa'). rewrite HFa'.
    unfold Client.shouldRetry. cbn [Client.type Client.statusCode Client.ErrorType_eqb orb andb].
    replace (r_status r' >=? 500) with true by (symmetry; apply Z.geb_le; lia).
    destruct (rc >=? mx); reflexivity.
Qed.

(** X15 (witness): a server that always answers 500, two retries. *)
Lemma client_server_error_retried_witness :
  (forall a : Z, exists r d, (fun _ : Z => FResponse r500) a = FResponse r /\
                             Client.parseBody r = inl d /\ 500 <= r_status r) /\
  snd (Client.apiRequest (fun _ => FResponse r500) 2) = [0; 1; 2].
Proof.
  assert (H : forall a : Z, exists r d, (fun _ : Z => FResponse r500) a = FResponse r /\
                             Client.parseBody r = inl d /\ 500 <= r_status r)
    by (intro a; exists r500, (DText ""); repeat split; cbn; lia).
  split; [exact H |].
  destruct (client_server_error_retried _ 2 H) as (r & d & _ & _ & He). rewrite He. reflexivity.
Defined.

(** X16: apiRequest of client.js never retries an error response below 500
    whose body it could read (408 and 429 included): whatever retries is, it
    fetches once and throws the ApiError with that status and body. *)
Theorem client_below_500_single_attempt :
  forall (fetch : Z -> FetchResult) (retries : Z) (r : Response) (d : Data),
  fetch 0 = FResponse r -> Client.parseBody r = inl d -> response_ok r = false ->
  r_status r < 500 ->
  exists e, Client.apiRequest fetch retries = (Client.Threw (Client.ThApi e), [0]) /\
    Client.statusCode e = r_status r /\ Client.data e = d.
Proof.
  intros fetch retries r d Hf Hp Hok Hs.
  pose proof (client_tryBlock_error r d Hp Hok) as Ht.
  eexists. unfold Client.apiRequest. cbn [Client.executeRequest]. rewrite Hf, Ht.
  replace (Client.shouldRetry _ 0 retries) with false.
  - split; [reflexivity | split; reflexivity].
  - unfold Client.shouldRetry. cbn [Client.type Client.statusCode].
    destruct (0 >=? retries); [reflexivity |].
    unfold Client.mapStatusToErrorType.
    destruct (Z.geb_spec (r_status r) 500) as [Hge | _]; [lia |].
    destruct (r_status r =? 401), (r_status r =? 403), (r_status r =? 404), (r_status r =? 422);
      reflexivity.
Qed.

(** X16 (witness): a 429 with retries = 3. *)
Lemma client_below_500_single_attempt_witness :
  let r429 := mkResponse 429 "Too Many Requests" None None "" in
  (fun _ : Z => FResponse r429) 0 = FResponse r429 /\ Client.parseBody r429 = inl (DText "") /\
  response_ok r429 = false /\ r_status r429 < 500 /\
  snd (Client.apiRequest (fun _ => FResponse r429) 3) = [0].
Proof.
  cbv zeta.
  assert (H1 : (fun _ : Z => FResponse (mkResponse 429 "Too Many Requests" None None "")) 0 =
               FResponse (mkResponse 429 "Too Many Requests" None None "")) by reflexivity.
  assert (H2 : Client.parseBody (mkResponse 429 "Too Many Requests" None None "") = inl (DText ""))
    by reflexivity.
  assert (H3 : response_ok (mkResponse 429 "Too Many Requests" None None "") = false) by reflexivity.
  assert (H4 : r_status (mkResponse 429 "Too Many Requests" None None "") < 500) by (cbn; lia).
  split; [exact H1 | split; [exact H2 | split; [exact H3 | split; [exact H4 |]]]].
  destruct (client_below_500_single_attempt _ 3 _ _ H1 H2 H3 H4) as (e & He & _).
  rewrite He. reflexivity.
Defined.

(* ------------------------------------------------------------------------- *)
(* hooks/useApi.js: where execute puts the abort signal *)

(** X17: execute of useApi always passes the new controller's signal in its
    last argument: merged into a trailing plain object (whose other properties
    are kept and whose earlier arguments stay in place), or appended as a new
    { signal } argument otherwise (no argument, or a last argument that is not
    a plain object). *)
Theorem hook_apiCallArgs_signal : forall (args : list Js.JVal) (signal : Js.JVal),
  (forall p, last args Js.JUndef = Js.JObj p -> NoDup (map fst p)) ->
  exists o, last (Hook.apiCallArgs args signal) Js.JUndef = Js.JObj o /\
    Js.lookup o "signal" = Some signal /\
    match last args Js.JUndef with
    | Js.JObj p => removelast (Hook.apiCallArgs args signal) = removelast args /\
                   forall k, k <> "signal" -> Js.lookup o k = Js.lookup p k
    | _ => removelast (Hook.apiCallArgs args signal) = args /\ o = [("signal", signal)]
    end.
Proof.
  intros args s Hnd. unfold Hook.apiCallArgs. cbv zeta.
  destruct (last args Js.JUndef) as [| | b | n | str | xs | p] eqn:Hl; cbv beta iota;
    try (exists [("signal", s)]; rewrite last_last, removelast_last;
         split; [reflexivity | split; [reflexivity | split; reflexivity]]).
  exists (Js.set (Js.spreadVal [] (Js.JObj p)) "signal" s).
  rewrite last_last, removelast_last. split; [reflexivity |].
  split; [rewrite lookup_set, String.eqb_refl; reflexivity |]. split; [reflexivity |].
  intros k Hk. apply String.eqb_neq in Hk. rewrite lookup_set, Hk.
  apply spread_nil_lookup, Hnd. reflexivity.
Qed.

(** X17 (witness): execute('a', { page: 2 }). *)
Lemma hook_apiCallArgs_signal_witness :
  (forall p, last [Js.JStr "a"; Js.JObj [("page", Js.JNum 2)]] Js.JUndef = Js.JObj p ->
             NoDup (map fst p)) /\
  exists o, last (Hook.apiCallArgs [Js.JStr "a"; Js.JObj [("page", Js.JNum 2)]] Js.JNull) Js.JUndef =
              Js.JObj o /\ Js.lookup o "page" = Some (Js.JNum 2).
Proof.
  assert (H : forall p, last [Js.JStr "a"; Js.JObj [("page", Js.JNum 2)]] Js.JUndef = Js.JObj p ->
                        NoDup (map fst p))
    by (intros p Hp; injection Hp as <-; apply nodup_single).
  split; [exact H |].
  destruct (hook_apiCallArgs_signal _ Js.JNull H) as (o & Hl & _ & Hm).
  destruct Hm as [_ Hk]. exists o. split; [exact Hl |].
  rewrite Hk by discriminate. reflexivity.
Defined.

(** X18: useApiPost's execute(data) with a plain-object data and no options
    puts the abort signal into the request body and none into the options of
    apiRequest, so the request cannot be canceled; execute(data, options) with
    a plain-object options does pass the signal. *)
Theorem hook_post_signal_in_body : forall (p : Js.Props) (signal : Js.JVal),
  NoDup (map fst p) ->
  let options := Hook.postApiCall (Hook.apiCallArgs [Js.JObj p] signal) in
  Js.lookup options "signal" = None /\ ClientReq.method options = Js.JStr "POST" /\
  (exists b, ClientReq.body options = Js.JObj b /\ Js.lookup b "signal" = Some signal /\
             forall k, k <> "signal" -> Js.lookup b k = Js.lookup p k) /\
  (forall (data : Js.JVal) (q : Js.Props),
   Js.lookup (Hook.postApiCall (Hook.apiCallArgs [data; Js.JObj q] signal)) "signal" = Some signal).
Proof.
  intros p s Hnd. cbv zeta. split; [reflexivity | split; [reflexivity | split]].
  - eexists. split; [reflexivity |].
    split; [rewrite lookup_set, String.eqb_refl; reflexivity |].
    intros k Hk. apply String.eqb_neq in Hk. rewrite lookup_set, Hk.
    apply spread_nil_lookup, Hnd.
  - intros d q. unfold Hook.postApiCall, ClientReq.post. cbn [Hook.apiCallArgs last removelast app nth].
    cbn [Js.ownProps Js.spreadVal].
    rewrite lookup_spread by (apply nodup_set, spread_nil_nodup).
    rewrite lookup_set, String.eqb_refl. reflexivity.
Qed.

(** X18 (witness). *)
Lemma hook_post_signal_in_body_witness :
  NoDup (map fst [("name", Js.JStr "x")]) /\
  Js.lookup (Hook.postApiCall (Hook.apiCallArgs [Js.JObj [("name", Js.JStr "x")]] Js.JNull)) "signal" = None.
Proof.
  assert (H := nodup_single "name" (Js.JStr "x")).
  split; [exact H | exact (proj1 (hook_post_signal_in_body _ Js.JNull H))].
Defined.

(** X19: useApiGet's execute never passes the abort signal to apiRequest,
    whatever its arguments; execute() (as run on mount) sends the params
    { signal } instead of the hook's params. *)
Theorem hook_get_signal_lost : forall (params : Js.JVal) (args : list Js.JVal) (signal : Js.JVal),
  Js.lookup (Hook.getApiCall params (Hook.apiCallArgs args signal)) "signal" = None /\
  Js.lookup (Hook.getApiCall params (Hook.apiCallArgs [] signal)) "params" =
    Some (Js.JObj [("signal", signal)]).
Proof. intros params args s. split; reflexivity. Qed.

(** X20: useApiDelete's execute() and execute(options) with a plain-object
    options pass the abort signal to apiRequest. *)
Theorem hook_delete_signal : forall (q : Js.Props) (signal : Js.JVal),
  Js.lookup (Hook.deleteApiCall (Hook.apiCallArgs [] signal)) "signal" = Some signal /\
  Js.lookup (Hook.deleteApiCall (Hook.apiCallArgs [Js.JObj q] signal)) "signal" = Some signal.
Proof.
  intros q s. split; [reflexivity |].
  unfold Hook.deleteApiCall, ClientReq.delete. cbn [Hook.apiCallArgs last removelast app nth].
  cbn [Js.ownProps Js.spreadVal].
  rewrite lookup_spread by (apply nodup_set, spread_nil_nodup).
  rewrite lookup_set, String.eqb_refl. reflexivity.
Qed.

(** X21: after execute of useApi settles with a response or with a rejection
    other than null (apiRequest never rejects with null; on null, err.type
    throws), loading is still true exactly when the call failed with a
    CANCELED ApiError; the data is replaced only on success and kept on any
    error. *)
Theorem hook_execute_state :
  forall (st : Hook.HookState) (settled : Client.Success + Client.Thrown),
  settled <> inr (Client.ThValue NNull) ->
  (Hook.loading (fst (Hook.execute st settled)) = true <->
   exists e, settled = inr (Client.ThApi e) /\ Client.type e = Client.CANCELED) /\
  Hook.data (fst (Hook.execute st settled)) =
    match settled with inl s => Client.s_data s | inr _ => Hook.data st end.
Proof.
  intros st [s | [e | n m | [| p]]] Hnn; cbn.
  - split; [| reflexivity]. split; [discriminate | intros (e & H & _); discriminate].
  - destruct (Client.type e) eqn:Ht; cbn;
      (split; [| reflexivity]);
      (split; [try discriminate; intros _; exists e; auto |
               intros (e' & H & H'); injection H as <-; congruence]).
  - split; [| reflexivity]. split; [discriminate | intros (e & H & _); discriminate].
  - contradiction Hnn; reflexivity.
  - split; [| reflexivity]. split; [discriminate | intros (e & H & _); discriminate].
Qed.

(** X21 (witness): a CANCELED ApiError leaves loading set. *)
Lemma hook_execute_state_witness :
  inr (Client.ThApi (Client.mkApiError "Request canceled" Client.CANCELED 0 DNull)) <>
    (inr (Client.ThValue NNull) : Client.Success + Client.Thrown) /\
  Hook.loading (fst (Hook.execute (Hook.mkHookState DNull false None)
    (inr (Client.ThApi (Client.mkApiError "Request canceled" Client.CANCELED 0 DNull))))) = true.
Proof.
  assert (H : inr (Client.ThApi (Client.mkApiError "Request canceled" Client.CANCELED 0 DNull)) <>
              (inr (Client.ThValue NNull) : Client.Success + Client.Thrown)) by discriminate.
  split; [exact H |].
  apply (proj2 (proj1 (hook_execute_state (Hook.mkHookState DNull false None) _ H))).
  eexists. split; reflexivity.
Defined.

(* ------------------------------------------------------------------------- *)
(* http.js: registries and interceptor chains *)

Lemma push_first_occurrence : forall (l l1 l2 : list nat) (f : nat),
  ~ In f l -> ~ In f l1 -> (l ++ [f])%list = (l1 ++ f :: l2)%list -> l1 = l /\ l2 = [].
Proof.
  intros l l1. revert l. induction l1 as [| y l1 IH]; intros l l2 f Hl Hl1 H.
  - destruct l as [| x l]; cbn in H.
    + injection H as ->. auto.
    + injection H as -> _. exfalso. apply Hl. left; reflexivity.
  - destruct l as [| x l]; cbn in H.
    + injection H as -> _. exfalso. apply Hl1. left; reflexivity.
    + injection H as -> H. destruct (IH l l2 f) as [-> ->]; auto.
      * intro Hin. apply Hl. right; exact Hin.
      * intro Hin. apply Hl1. right; exact Hin.
Qed.

Lemma remover_push : forall (l : list nat) (f : nat),
  ~ In f l -> Http.remover f (Http.push l f) = l.
Proof.
  intros l f Hn. unfold Http.push.
  destruct (remover_cases (l ++ [f]) f) as [[Hn' _] | (l1 & l2 & Heq & Hn1 & Hr)].
  - exfalso. apply Hn'. apply in_or_app. right; left; reflexivity.
  - rewrite Hr. destruct (push_first_occurrence l l1 l2 f Hn Hn1 Heq) as [-> ->].
    apply app_nil_r.
Qed.

(** X2: when the error interceptors before [i] returned, or threw values the
    catch block could log, and [i] throws undefined or null, the catch
    block's read of interceptorError.message throws a TypeError: the chain
    throws it without calling the interceptors after [i], and request, whose
    retry loop exited with [lastError], rejects with that TypeError. *)
Theorem error_chain_nullish_throw :
  forall rq rs (pre post : list Http.ErrorInterceptor) (i : Http.ErrorInterceptor)
         config requestConfig fetch lastError tr cur trpre (x : Http.Thrown),
  Http.applyRequestInterceptors rq config = Http.Ret requestConfig ->
  Http.whileLoop rs fetch (Http.cfg_retries requestConfig)
    (S (S (Z.to_nat (Http.cfg_retries requestConfig)))) 0 Http.HUndefined =
    (Http.LExit lastError, tr) ->
  Http.errorLoop lastError pre lastError = (Http.COk (Some cur), trpre) ->
  Http.er_fn i cur = Http.IRThrows x -> Http.nullish x = true ->
  Http.applyErrorInterceptors (pre ++ i :: post)%list lastError =
    (Http.CThrow (Http.readTypeError x "message"), (trpre ++ [Http.er_ref i])%list) /\
  Http.request rq rs (pre ++ i :: post)%list config fetch =
    (Http.Rejected (Http.readTypeError x "message"), tr).
Proof.
  intros rq rs pre post i config rc fetch le tr cur trpre x Hrq Hw Hpre Hi Hx.
  assert (Hc : Http.applyErrorInterceptors (pre ++ i :: post)%list le =
               (Http.CThrow (Http.readTypeError x "message"), (trpre ++ [Http.er_ref i])%list)).
  { unfold Http.applyErrorInterceptors. rewrite (errorLoop_app _ _ _ _ _ _ Hpre).
    cbn. rewrite Hi, Hx. reflexivity. }
  split; [exact Hc |].
  unfold Http.request. rewrite Hrq, Hw, Hc. reflexivity.
Qed.

(** X2 (witness): a 500 response with no retry; in the chain [ei_pass;
    ei_throw_undefined; ei_handle], the second interceptor throws undefined,
    so request rejects with a TypeError and ei_handle is never called. *)
Lemma error_chain_nullish_throw_witness :
  Http.request [] [] [ei_pass; ei_throw_undefined; ei_handle] (config_with 0)
    (fun _ => FResponse r500) =
    (Http.Rejected (Http.HOther "TypeError" "Cannot read properties of undefined (reading 'message')"), [0]).
Proof.
  exact (proj2 (error_chain_nullish_throw [] [] [ei_pass] [ei_handle] ei_throw_undefined
           (config_with 0) (config_with 0) (fun _ => FResponse r500)
           (Http.HApi "An error occurred on the server" 500 DResponse None) [0]
           (Http.HApi "An error occurred on the server" 500 DResponse None) [1%nat]
           Http.HUndefined eq_refl eq_refl eq_refl eq_refl eq_refl)).
Defined.

(** X22: adding an interceptor that is not yet registered and calling the
    returned remover right away gives back the registries as they were. *)
Theorem registry_add_remove_roundtrip :
  forall (c : Http.Chain) (f : nat) (st : Http.Registries),
  ~ In f (Http.registry c st) ->
  snd (Http.addInterceptor c f st) (fst (Http.addInterceptor c f st)) = st.
Proof.
  intros c f [l1 l2 l3] Hn.
  destruct c; cbn [Http.addInterceptor Http.registry Http.set_registry fst snd
                   Http.requestInterceptors Http.responseInterceptors Http.errorInterceptors] in *;
    rewrite remover_push by exact Hn; reflexivity.
Qed.

(** X22 (witness). *)
Lemma registry_add_remove_roundtrip_witness :
  ~ In 5%nat (Http.registry Http.RequestChain (Http.mkRegistries [1; 2]%nat [] [])) /\
  snd (Http.addInterceptor Http.RequestChain 5 (Http.mkRegistries [1; 2]%nat [] []))
      (fst (Http.addInterceptor Http.RequestChain 5 (Http.mkRegistries [1; 2]%nat [] []))) =
    Http.mkRegistries [1; 2]%nat [] [].
Proof.
  assert (H : ~ In 5%nat (Http.registry Http.RequestChain (Http.mkRegistries [1; 2]%nat [] [])))
    by (cbn; intros [H | [H | []]]; discriminate).
  split; [exact H | exact (registry_add_remove_roundtrip _ _ _ H)].
Defined.

Lemma reduceInterceptors_app : forall {A : Type} (fs gs : list (A -> Http.Step A)) (x : A),
  Http.reduceInterceptors (fs ++ gs) x =
  match Http.reduceInterceptors fs x with
  | Http.Ret y => Http.reduceInterceptors gs y
  | Http.Throw e => Http.Throw e
  end.
Proof.
  intros A fs gs. induction fs as [| f fs IH]; intro x; cbn; [reflexivity |].
  destruct (f x); [apply IH | reflexivity].
Qed.

(** X23: the request (and response) interceptor chains compose: running the
    interceptors rq1 ++ rq2 runs rq1, then rq2 on its result; an exception in
    rq1 skips rq2 entirely. *)
Theorem interceptor_chains_compose :
  (forall (rq1 rq2 : list Http.RequestInterceptor) (config : Http.Config),
   Http.applyRequestInterceptors (rq1 ++ rq2) config =
   match Http.applyRequestInterceptors rq1 config with
   | Http.Ret c => Http.applyRequestInterceptors rq2 c
   | Http.Throw e => Http.Throw e
   end) /\
  (forall (rs1 rs2 : list Http.ResponseInterceptor) (response : Http.Envelope),
   Http.applyResponseInterceptors (rs1 ++ rs2) response =
   match Http.applyResponseInterceptors rs1 response with
   | Http.Ret r => Http.applyResponseInterceptors rs2 r
   | Http.Throw e => Http.Throw e
   end).
Proof.
  split; intros l1 l2 x;
    unfold Http.applyRequestInterceptors, Http.applyResponseInterceptors;
    rewrite map_app; apply reduceInterceptors_app.
Qed.
